(** * Sexagenary pillars of [src/calendar/heavenlyStemAndEarthlyBranch.ts]

    A shallow embedding of the pillar computations (year, month, day and
    double-hour) and of the two aggregate queries, with the properties of
    the specification stated over it.

    JavaScript numbers that the module handles are integers, modelled by
    [Z]; [undefined] is modelled by [None]; the only place where [NaN] can
    arise is [Date.UTC], whose result is an [option Z]. Numbers are
    binary64 values: the remainder [%] is exact on them, and the one
    difference taken on a number of any size, [year - 3] of the year rule,
    is rounded as binary64 rounds it. *)

From Stdlib Require Import ZArith List Lia Bool String.
Import ListNotations.
Local Open Scope Z_scope.

(** ** The JavaScript primitives the module relies on *)
Module JS.

(** [a % b] on integers: the remainder takes the sign of the dividend. *)
Definition rem (a b : Z) : Z := Z.rem a b.

(** The binary64 value nearest to an integer, ties to the even
    significand: every integer up to 2^53 in magnitude is kept, a larger
    one keeps its 53 leading bits. *)
Definition roundToDouble (z : Z) : Z :=
  let a := Z.abs z in
  if a <=? 9007199254740992 then z
  else
    let ulp := 2 ^ (Z.log2 a - 52) in
    let q := a / ulp in
    let r := a mod ulp in
    let half := ulp / 2 in
    let q' :=
      if r <? half then q
      else if half <? r then q + 1
      else if Z.even q then q else q + 1 in
    Z.sgn z * (q' * ulp).

(** [a - b] on integers held as binary64 numbers: the exact difference,
    rounded. (A finite number less 3 never overflows.) *)
Definition sub (a b : Z) : Z := roundToDouble (a - b).

(** [arr[i]] for an integer [i]: the element when [i] is an index of
    [arr], [undefined] otherwise (negative or past the end). *)
Definition get {A : Type} (arr : list A) (i : Z) : option A :=
  if i <? 0 then None else nth_error arr (Z.to_nat i).

(** [arr.indexOf(x)]: the first index holding [x], or [-1]. The searched
    value may be [undefined], which no table entry equals. *)
Fixpoint indexOfFrom {A : Type} (eqb : A -> A -> bool) (arr : list A)
         (x : A) (from : Z) : Z :=
  match arr with
  | [] => -1
  | y :: tl => if eqb y x then from else indexOfFrom eqb tl x (from + 1)
  end.

Definition indexOf {A : Type} (eqb : A -> A -> bool) (arr : list A)
           (x : option A) : Z :=
  match x with
  | Some v => indexOfFrom eqb arr v 0
  | None => -1
  end.

(** *** [Date.UTC], after ECMAScript (Day Number and Time Value) *)

Definition msPerDay : Z := 86400000.

Definition DayFromYear (y : Z) : Z :=
  365 * (y - 1970) + (y - 1969) / 4 - (y - 1901) / 100 + (y - 1601) / 400.

Definition InLeapYear (y : Z) : bool :=
  ((y mod 4 =? 0) && negb (y mod 100 =? 0)) || (y mod 400 =? 0).

(** Day number, within its year, of the first day of month [mn] (0..11). *)
Definition DayWithinYear (leap : bool) (mn : Z) : Z :=
  let l := if leap then 1 else 0 in
  match mn with
  | 0 => 0
  | 1 => 31
  | 2 => 59 + l
  | 3 => 90 + l
  | 4 => 120 + l
  | 5 => 151 + l
  | 6 => 181 + l
  | 7 => 212 + l
  | 8 => 243 + l
  | 9 => 273 + l
  | 10 => 304 + l
  | _ => 334 + l
  end.

(** [MakeDay(year, month, date)]: months outside 0..11 carry into the
    year. *)
Definition MakeDay (year month date : Z) : Z :=
  let ym := year + month / 12 in
  let mn := month mod 12 in
  DayFromYear ym + DayWithinYear (InLeapYear ym) mn + date - 1.

(** [Date.UTC] reads a year in 0..99 as 1900 + year. *)
Definition MakeFullYear (y : Z) : Z :=
  if (0 <=? y) && (y <=? 99) then 1900 + y else y.

(** [TimeClip]: a time value past 8.64e15 ms in magnitude is [NaN]. *)
Definition TimeClip (t : Z) : option Z :=
  if Z.abs t <=? 8640000000000000 then Some t else None.

(** [Date.UTC(year, month, date, 0, 0, 0, 0)] in milliseconds. *)
Definition Date_UTC (year month date : Z) : option Z :=
  TimeClip (MakeDay (MakeFullYear year) month date * msPerDay).

End JS.

(** ** The static tables and the index helper ([src/data], [src/utils]) *)

(** Modelled from the spec: the stem type of the missing data module, one
    of 10 fixed symbols, totally ordered, cyclic with period 10. *)
Inductive HeavenlyStem : Type :=
| jiaHeavenly | yiHeavenly | bingHeavenly | dingHeavenly | wuHeavenly
| jiHeavenly | gengHeavenly | xinHeavenly | renHeavenly | guiHeavenly.

(** Modelled from the spec: the branch type of the missing data module,
    one of 12 fixed symbols, totally ordered, cyclic with period 12. *)
Inductive EarthlyBranch : Type :=
| ziEarthly | chouEarthly | yinEarthly | maoEarthly | chenEarthly
| siEarthly | wuEarthly | weiEarthly | shenEarthly | youEarthly
| xuEarthly | haiEarthly.

(** Modelled from the spec: the stem table of the missing data module, the
    ten stems in their order. *)
Definition HEAVENLY_STEMS : list HeavenlyStem :=
  [jiaHeavenly; yiHeavenly; bingHeavenly; dingHeavenly; wuHeavenly;
   jiHeavenly; gengHeavenly; xinHeavenly; renHeavenly; guiHeavenly].

(** Modelled from the spec: the branch table of the missing data module,
    the twelve branches in their order. *)
Definition EARTHLY_BRANCHES : list EarthlyBranch :=
  [ziEarthly; chouEarthly; yinEarthly; maoEarthly; chenEarthly; siEarthly;
   wuEarthly; weiEarthly; shenEarthly; youEarthly; xuEarthly; haiEarthly].

Definition HeavenlyStem_eq_dec (a b : HeavenlyStem) : {a = b} + {a <> b}.
Proof. decide equality. Defined.

Definition EarthlyBranch_eq_dec (a b : EarthlyBranch) : {a = b} + {a <> b}.
Proof. decide equality. Defined.

Definition HeavenlyStem_eqb (a b : HeavenlyStem) : bool :=
  if HeavenlyStem_eq_dec a b then true else false.

Definition EarthlyBranch_eqb (a b : EarthlyBranch) : bool :=
  if EarthlyBranch_eq_dec a b then true else false.

(** Modelled from the spec: [fixIndex(value, modulus = 12)] of the missing
    utils module, which maps any integer to a zero-based index of a cycle
    of length [modulus] by true modular reduction. *)
Definition fixIndex (index : Z) (max : Z) : Z := index mod max.

(** [fixIndex(index)], the modulus left to its default value. *)
Definition fixIndexDefault (index : Z) : Z := fixIndex index 12.

(** ** Pillars *)

(** [[stem, branch]]; an entry read outside its table is [undefined]. *)
Definition HeavenlyStemAndEarthlyBranch : Type :=
  (option HeavenlyStem * option EarthlyBranch)%type.

Definition heavenlyStemAndEarthlyBranchFromOffset (offset : Z)
  : HeavenlyStemAndEarthlyBranch :=
  (JS.get HEAVENLY_STEMS (JS.rem offset 10),
   JS.get EARTHLY_BRANCHES (JS.rem offset 12)).

(** The offset may be [NaN] (from [Date.UTC]): [NaN % n] is [NaN], and an
    array read at [NaN] is [undefined]. *)
Definition heavenlyStemAndEarthlyBranchFromNumber (offset : option Z)
  : HeavenlyStemAndEarthlyBranch :=
  match offset with
  | Some o => heavenlyStemAndEarthlyBranchFromOffset o
  | None => (None, None)
  end.

Definition heavenlyStemAndEarthlyBranchOfYear (year : Z)
  : HeavenlyStemAndEarthlyBranch :=
  let heavenStemKey := JS.rem (JS.sub year 3) 10 in
  let earthlyBranchKey := JS.rem (JS.sub year 3) 12 in
  let heavenStemKey := if heavenStemKey =? 0 then 10 else heavenStemKey in
  let earthlyBranchKey :=
    if earthlyBranchKey =? 0 then 12 else earthlyBranchKey in
  (JS.get HEAVENLY_STEMS (heavenStemKey - 1),
   JS.get EARTHLY_BRANCHES (earthlyBranchKey - 1)).

(** The year rule in the words of the specification: remainders by true
    modular reduction, a remainder of 0 standing for the modulus, the
    tables read at the remainder minus one. *)
Definition oneBasedRemainder (n modulus : Z) : Z :=
  let r := n mod modulus in if r =? 0 then modulus else r.

Definition yearPillarSpec (year : Z) : HeavenlyStemAndEarthlyBranch :=
  let stemRem := oneBasedRemainder (year - 3) 10 in
  let branchRem := oneBasedRemainder (year - 3) 12 in
  (JS.get HEAVENLY_STEMS (stemRem - 1),
   JS.get EARTHLY_BRANCHES (branchRem - 1)).

(** The position of a pillar in the cycle of sixty, when it has one. *)
Definition pillar_eqb (p q : HeavenlyStemAndEarthlyBranch) : bool :=
  match p, q with
  | (Some s, Some b), (Some s', Some b') =>
      HeavenlyStem_eqb s s' && EarthlyBranch_eqb b b'
  | _, _ => false
  end.

Definition sexagenaryCycle : list HeavenlyStemAndEarthlyBranch :=
  map (fun k => heavenlyStemAndEarthlyBranchFromOffset (Z.of_nat k))
      (seq 0 60).

Definition cyclePosition (p : HeavenlyStemAndEarthlyBranch) : option Z :=
  match p with
  | (Some _, Some _) =>
      let i := JS.indexOfFrom pillar_eqb sexagenaryCycle p 0 in
      if i <? 0 then None else Some i
  | _ => None
  end.

(** ** Solar dates: the proleptic Gregorian calendar of a JavaScript [Date] *)

Definition DaysInMonth (year month : Z) : Z :=
  match month with
  | 2 => if JS.InLeapYear year then 29 else 28
  | 4 | 6 | 9 | 11 => 30
  | _ => 31
  end.

(** [(year, month, day)] with the month in 1..12 and the day within it. *)
Definition validSolarDate (ymd : Z * Z * Z) : bool :=
  let '(year, month, day) := ymd in
  (1 <=? month) && (month <=? 12) && (1 <=? day)
  && (day <=? DaysInMonth year month).

(** The calendar day after [ymd]. *)
Definition nextSolarDay (ymd : Z * Z * Z) : Z * Z * Z :=
  let '(year, month, day) := ymd in
  if day <? DaysInMonth year month then (year, month, day + 1)
  else if month <? 12 then (year, month + 1, 1)
  else (year + 1, 1, 1).

(** Day number of [ymd] since 1970-01-01, and whether a [Date] can hold
    that day (at most 100,000,000 days from the epoch either way). *)
Definition epochDay (ymd : Z * Z * Z) : Z :=
  let '(year, month, day) := ymd in JS.MakeDay year (month - 1) day.

Definition representable (ymd : Z * Z * Z) : bool :=
  Z.abs (epochDay ymd) <=? 100000000.

(** ** Text of the symbols and of a result *)

(** Modelled from the spec: the text of the stems in the missing data
    module, as the documentation of [toString] shows them. *)
Definition stemText (s : HeavenlyStem) : string :=
  match s with
  | jiaHeavenly => "甲" | yiHeavenly => "乙" | bingHeavenly => "丙"
  | dingHeavenly => "丁" | wuHeavenly => "戊" | jiHeavenly => "己"
  | gengHeavenly => "庚" | xinHeavenly => "辛" | renHeavenly => "壬"
  | guiHeavenly => "癸"
  end.

(** Modelled from the spec: the text of the branches in the missing data
    module, as the documentation of [toString] shows them. *)
Definition branchText (b : EarthlyBranch) : string :=
  match b with
  | ziEarthly => "子" | chouEarthly => "丑" | yinEarthly => "寅"
  | maoEarthly => "卯" | chenEarthly => "辰" | siEarthly => "巳"
  | wuEarthly => "午" | weiEarthly => "未" | shenEarthly => "申"
  | youEarthly => "酉" | xuEarthly => "戌" | haiEarthly => "亥"
  end.

(** [pillar.join('')]: an [undefined] entry joins as the empty string. *)
Definition joinPillar (p : HeavenlyStemAndEarthlyBranch) : string :=
  (match fst p with Some s => stemText s | None => "" end
   ++ match snd p with Some b => branchText b | None => "" end)%string.

Record HeavenlyStemAndEarthlyBranchResult : Type := {
  yearly : HeavenlyStemAndEarthlyBranch;
  monthly : HeavenlyStemAndEarthlyBranch;
  daily : HeavenlyStemAndEarthlyBranch;
  timely : HeavenlyStemAndEarthlyBranch;
  toString : unit -> string
}.

Definition fourPillarsText
  (yearly monthly daily timely : HeavenlyStemAndEarthlyBranch) : string :=
  (joinPillar yearly ++ " " ++ joinPillar monthly ++ " "
   ++ joinPillar daily ++ " " ++ joinPillar timely)%string.

(** ** The rules that read a date, over the collaborators they call *)

(** The interfaces consumed from the calendar-conversion subsystem
    ([./convertor], [./misc]): a JavaScript [Date] and its
    decomposition into [(year, month, day)]; [getTerm(year, n)], the day
    of the month on which term [n] falls; a lunar date string to its
    [(year, month, day)]; a lunar date to a solar one and its text; a
    solar date string to a lunar date and its year; and [new Date(text)]. *)
Class Collaborators : Type := {
  SolarDate : Type;
  normalizeSolarDateStr : SolarDate -> Z * Z * Z;
  getTerm : Z -> Z -> Z;
  normalizeLunarDateStr : string -> Z * Z * Z;
  SolarResult : Type;
  lunar2solar : string -> option bool -> SolarResult;
  solarResultToString : SolarResult -> string;
  LunarResult : Type;
  solar2lunar : string -> LunarResult;
  lunarYearOf : LunarResult -> Z;
  newDate : string -> SolarDate
}.

Section Rules.

Context {collab : Collaborators}.

(** The stem-to-stem table of the five rats rule, of the missing data
    module. *)
Variable RAT_RULE : HeavenlyStem -> HeavenlyStem.

Definition heavenlyStemAndEarthlyBranchOfMonth (date : SolarDate)
  : HeavenlyStemAndEarthlyBranch :=
  let '(year, month, day) := normalizeSolarDateStr date in
  let firstNode := getTerm year (month * 2 - 1) in
  let offset := (year - 1900) * 12 + month + 11 in
  if day >=? firstNode
  then heavenlyStemAndEarthlyBranchFromOffset (offset + 1)
  else heavenlyStemAndEarthlyBranchFromOffset offset.

(** The number that the day rule hands to the offset conversion,
    [dayCyclical + day + dayFix - 1]; [None] when [Date.UTC] gives [NaN],
    which the sums keep. *)
Definition dayOffset (date : SolarDate) (timeIndex : Z) : option Z :=
  let '(year, month, day) := normalizeSolarDateStr date in
  let dayFix := if timeIndex =? 12 then 1 else 0 in
  match JS.Date_UTC year (month - 1) 1 with
  | Some ms =>
      let dayCyclical := ms / 86400000 + 25567 + 10 in
      Some (dayCyclical + day + dayFix - 1)
  | None => None
  end.

Definition heavenlyStemAndEarthlyBranchOfDay (date : SolarDate)
           (timeIndex : Z) : HeavenlyStemAndEarthlyBranch :=
  heavenlyStemAndEarthlyBranchFromNumber (dayOffset date timeIndex).

(** The day stem is [daily[0]] in the aggregate queries, which may be
    [undefined]; [RAT_RULE[undefined]] is [undefined]. *)
Definition heavenlyStemAndEarthlyBranchOfTime (timeIndex : Z)
           (heavenlyStemOfDay : option HeavenlyStem)
  : HeavenlyStemAndEarthlyBranch :=
  let startHeavenlyStem := option_map RAT_RULE heavenlyStemOfDay in
  let heavenlyStem :=
    JS.get HEAVENLY_STEMS
      (fixIndex (JS.indexOf HeavenlyStem_eqb HEAVENLY_STEMS startHeavenlyStem
                 + fixIndexDefault timeIndex) 10) in
  let earthlyBranch := JS.get EARTHLY_BRANCHES (fixIndexDefault timeIndex) in
  (heavenlyStem, earthlyBranch).

(** The hour rule in the words of the specification: the advance from
    the start stem reduced modulo 10, the branch modulo 12. *)
Definition hourPillarSpec (timeIndex : Z) (dayStem : HeavenlyStem)
  : HeavenlyStemAndEarthlyBranch :=
  let startStem := RAT_RULE dayStem in
  (JS.get HEAVENLY_STEMS
     (fixIndex (JS.indexOf HeavenlyStem_eqb HEAVENLY_STEMS (Some startStem)
                + fixIndex timeIndex 10) 10),
   JS.get EARTHLY_BRANCHES (fixIndex timeIndex 12)).

(** *** The aggregate queries *)

Definition getHeavenlyStemAndEarthlyBranchByLunarDate (dateStr : string)
           (timeIndex : Z) (isLeap : option bool)
  : HeavenlyStemAndEarthlyBranchResult :=
  let '(lunarYear, _, _) := normalizeLunarDateStr dateStr in
  let solar := lunar2solar dateStr isLeap in
  let solarDate := newDate (solarResultToString solar) in
  let yearly := heavenlyStemAndEarthlyBranchOfYear lunarYear in
  let monthly := heavenlyStemAndEarthlyBranchOfMonth solarDate in
  let daily := heavenlyStemAndEarthlyBranchOfDay solarDate timeIndex in
  let timely := heavenlyStemAndEarthlyBranchOfTime timeIndex (fst daily) in
  {| yearly := yearly; monthly := monthly; daily := daily;
     timely := timely;
     toString := fun _ => fourPillarsText yearly monthly daily timely |}.

Definition getHeavenlyStemAndEarthlyBranchBySolarDate (dateStr : string)
           (timeIndex : Z) : HeavenlyStemAndEarthlyBranchResult :=
  let solarDate := newDate dateStr in
  let lunarYear := lunarYearOf (solar2lunar dateStr) in
  let yearly := heavenlyStemAndEarthlyBranchOfYear lunarYear in
  let monthly := heavenlyStemAndEarthlyBranchOfMonth solarDate in
  let daily := heavenlyStemAndEarthlyBranchOfDay solarDate timeIndex in
  let timely := heavenlyStemAndEarthlyBranchOfTime timeIndex (fst daily) in
  {| yearly := yearly; monthly := monthly; daily := daily;
     timely := timely;
     toString := fun _ => fourPillarsText yearly monthly daily timely |}.

End Rules.

(** ** A plain reading of the collaborators *)

(** Modelled from the spec: the stem-to-stem table of the missing data
    module, five groups of two day stems sharing the stem of their first
    double-hour, the first stem starting at itself. *)
Definition traditionalRatRule (s : HeavenlyStem) : HeavenlyStem :=
  match s with
  | jiaHeavenly | jiHeavenly => jiaHeavenly
  | yiHeavenly | gengHeavenly => bingHeavenly
  | bingHeavenly | xinHeavenly => wuHeavenly
  | dingHeavenly | renHeavenly => gengHeavenly
  | wuHeavenly | guiHeavenly => renHeavenly
  end.

(** A reading used to run the rules on concrete dates: a date is held as
    its own [(year, month, day)], every month opens its term on day 6, and
    the conversions know one day, the solar date 2023-06-18, first day of
    the fifth lunar month of 2023. *)
Module Sample.

Definition ymd : Type := (Z * Z * Z)%type.

Definition collaborators : Collaborators := {|
  SolarDate := ymd;
  normalizeSolarDateStr := fun date => date;
  getTerm := fun _ _ => 6;
  normalizeLunarDateStr := fun _ => (2023, 5, 1);
  SolarResult := ymd;
  lunar2solar := fun _ _ => (2023, 6, 18);
  solarResultToString := fun _ => "2023-6-18"%string;
  LunarResult := ymd;
  solar2lunar := fun _ => (2023, 5, 1);
  lunarYearOf := fun lunar => fst (fst lunar);
  newDate := fun _ => (2023, 6, 18)
|}.

Definition ofMonth (date : ymd) : HeavenlyStemAndEarthlyBranch :=
  heavenlyStemAndEarthlyBranchOfMonth (collab := collaborators) date.

Definition offsetOfDay (date : ymd) (timeIndex : Z) : option Z :=
  dayOffset (collab := collaborators) date timeIndex.

Definition ofDay (date : ymd) (timeIndex : Z) : HeavenlyStemAndEarthlyBranch :=
  heavenlyStemAndEarthlyBranchOfDay (collab := collaborators) date timeIndex.

Definition ofTime (timeIndex : Z) (heavenlyStemOfDay : option HeavenlyStem)
  : HeavenlyStemAndEarthlyBranch :=
  heavenlyStemAndEarthlyBranchOfTime traditionalRatRule timeIndex
    heavenlyStemOfDay.

Definition byLunarDate (timeIndex : Z) : HeavenlyStemAndEarthlyBranchResult :=
  getHeavenlyStemAndEarthlyBranchByLunarDate (collab := collaborators)
    traditionalRatRule "2023-5-1" timeIndex None.

Definition bySolarDate (timeIndex : Z) : HeavenlyStemAndEarthlyBranchResult :=
  getHeavenlyStemAndEarthlyBranchBySolarDate (collab := collaborators)
    traditionalRatRule "2023-06-18" timeIndex.

End Sample.

(** A second reading, which knows two consecutive days by their text:
    2024-02-29 and, for any other text, 2024-03-01. *)
Module LeapDay.

Definition collaborators : Collaborators := {|
  SolarDate := Sample.ymd;
  normalizeSolarDateStr := fun date => date;
  getTerm := fun _ _ => 5;
  normalizeLunarDateStr := fun _ => (2024, 1, 20);
  SolarResult := Sample.ymd;
  lunar2solar := fun _ _ => (2024, 2, 29);
  solarResultToString := fun _ => "2024-2-29"%string;
  LunarResult := Sample.ymd;
  solar2lunar := fun _ => (2024, 1, 20);
  lunarYearOf := fun lunar => fst (fst lunar);
  newDate := fun text =>
    if String.eqb text "2024-02-29" then (2024, 2, 29) else (2024, 3, 1)
|}.

Definition bySolarDate (dateStr : string) (timeIndex : Z)
  : HeavenlyStemAndEarthlyBranchResult :=
  getHeavenlyStemAndEarthlyBranchBySolarDate (collab := collaborators)
    traditionalRatRule dateStr timeIndex.

End LeapDay.

(** A third reading, of a runtime west of UTC, where the two entry points
    build different dates from texts of one calendar day: the text of the
    converted lunar date, 2023-6-18, is not in the ISO form and is read
    as local midnight of that day; the solar text 2023-06-18 is in the
    ISO form and is read as midnight UTC, which is still the evening of
    2023-06-17 in local time, the time that [normalizeSolarDateStr]
    reads. *)
Module West.

Definition collaborators : Collaborators := {|
  SolarDate := Sample.ymd;
  normalizeSolarDateStr := fun date => date;
  getTerm := fun _ _ => 6;
  normalizeLunarDateStr := fun _ => (2023, 5, 1);
  SolarResult := Sample.ymd;
  lunar2solar := fun _ _ => (2023, 6, 18);
  solarResultToString := fun _ => "2023-6-18"%string;
  LunarResult := Sample.ymd;
  solar2lunar := fun _ => (2023, 5, 1);
  lunarYearOf := fun lunar => fst (fst lunar);
  newDate := fun text =>
    if String.eqb text "2023-06-18" then (2023, 6, 17) else (2023, 6, 18)
|}.

Definition byLunarDate (timeIndex : Z) : HeavenlyStemAndEarthlyBranchResult :=
  getHeavenlyStemAndEarthlyBranchByLunarDate (collab := collaborators)
    traditionalRatRule "2023-5-1" timeIndex None.

Definition bySolarDate (timeIndex : Z) : HeavenlyStemAndEarthlyBranchResult :=
  getHeavenlyStemAndEarthlyBranchBySolarDate (collab := collaborators)
    traditionalRatRule "2023-06-18" timeIndex.

End West.

(** * Properties *)

(** ** Remainders and table reads *)

Lemma rem_nonneg_mod (a m : Z) : 0 <= a -> 0 < m -> JS.rem a m = a mod m.
Proof. intros Ha Hm. unfold JS.rem. apply Z.rem_mod_nonneg; lia. Qed.

Lemma rem_nonneg_range (a m : Z) :
  0 <= a -> 0 < m -> 0 <= JS.rem a m <= m - 1.
Proof.
  intros Ha Hm. rewrite rem_nonneg_mod by assumption.
  pose proof (Z.mod_pos_bound a m Hm). lia.
Qed.

Lemma rem_nonpos_range (a m : Z) :
  a <= 0 -> 0 < m -> - (m - 1) <= JS.rem a m <= 0.
Proof.
  intros Ha Hm. unfold JS.rem.
  Z.to_euclidean_division_equations. lia.
Qed.

(** Up to 2^53 in magnitude a difference is exact. *)
Lemma sub_exact (a b : Z) :
  - 9007199254740992 <= a - b <= 9007199254740992 -> JS.sub a b = a - b.
Proof.
  intros H. unfold JS.sub, JS.roundToDouble.
  destruct (Z.abs (a - b) <=? 9007199254740992) eqn:E; [reflexivity|].
  apply Z.leb_gt in E. lia.
Qed.

(** Rounding keeps the sign. *)
Lemma sub_nonneg (a b : Z) : b <= a -> 0 <= JS.sub a b.
Proof.
  intros H. unfold JS.sub, JS.roundToDouble.
  destruct (Z.abs (a - b) <=? 9007199254740992) eqn:E; [lia|].
  apply Z.leb_gt in E.
  assert (Hs : Z.sgn (a - b) = 1) by (apply Z.sgn_pos; lia).
  rewrite Hs, Z.mul_1_l.
  set (ulp := 2 ^ (Z.log2 (Z.abs (a - b)) - 52)).
  assert (Hu : 0 <= ulp) by (apply Z.pow_nonneg; lia).
  assert (Hq : 0 <= Z.abs (a - b) / ulp).
  { destruct (Z.eq_dec ulp 0) as [U0|U0].
    - rewrite U0, Z.div_0_r. lia.
    - apply Z.div_pos; lia. }
  apply Z.mul_nonneg_nonneg; [|exact Hu].
  destruct (Z.abs (a - b) mod ulp <? ulp / 2); [exact Hq|].
  destruct (ulp / 2 <? Z.abs (a - b) mod ulp); [lia|].
  destruct (Z.even (Z.abs (a - b) / ulp)); lia.
Qed.

Lemma get_defined {A : Type} (arr : list A) (i : Z) :
  0 <= i < Z.of_nat (List.length arr) -> exists x, JS.get arr i = Some x.
Proof.
  intros [Hlo Hhi]. unfold JS.get.
  destruct (i <? 0) eqn:E; [apply Z.ltb_lt in E; lia|].
  destruct (nth_error arr (Z.to_nat i)) as [x|] eqn:N; [now exists x|].
  apply nth_error_None in N. lia.
Qed.

Lemma get_negative {A : Type} (arr : list A) (i : Z) :
  i < 0 -> JS.get arr i = None.
Proof.
  intros Hi. unfold JS.get.
  destruct (i <? 0) eqn:E; [reflexivity|apply Z.ltb_ge in E; lia].
Qed.

Lemma get_stem_defined (i : Z) :
  0 <= i <= 9 -> exists s, JS.get HEAVENLY_STEMS i = Some s.
Proof. intros H. apply get_defined. simpl. lia. Qed.

Lemma get_branch_defined (i : Z) :
  0 <= i <= 11 -> exists b, JS.get EARTHLY_BRANCHES i = Some b.
Proof. intros H. apply get_defined. simpl. lia. Qed.

(** ** The offset conversion *)

(** C1, as amended: for every non-negative integer offset (zero included),
    the offset conversion reads the stem table at an index in 0..9 and the
    branch table at an index in 0..11, and so returns a pair of defined
    table entries. *)
Theorem fromOffset_in_range_nonneg (offset : Z) :
  0 <= offset ->
  (0 <= JS.rem offset 10 <= 9) /\ (0 <= JS.rem offset 12 <= 11) /\
  (exists s b,
      heavenlyStemAndEarthlyBranchFromOffset offset = (Some s, Some b)).
Proof.
  intros Ho.
  pose proof (rem_nonneg_range offset 10 Ho ltac:(lia)) as Hs.
  pose proof (rem_nonneg_range offset 12 Ho ltac:(lia)) as Hb.
  split; [lia|]. split; [lia|].
  destruct (get_stem_defined (JS.rem offset 10)) as [s Es]; [lia|].
  destruct (get_branch_defined (JS.rem offset 12)) as [b Eb]; [lia|].
  exists s, b. unfold heavenlyStemAndEarthlyBranchFromOffset.
  now rewrite Es, Eb.
Qed.

Lemma fromOffset_in_range_nonneg_witness :
  0 <= 59 /\
  ((0 <= JS.rem 59 10 <= 9) /\ (0 <= JS.rem 59 12 <= 11) /\
   (exists s b,
       heavenlyStemAndEarthlyBranchFromOffset 59 = (Some s, Some b))).
Proof. split; [lia | apply (fromOffset_in_range_nonneg 59); lia]. Defined.

(** C1 as stated fails at offset -1: [-1 % 10] and [-1 % 12] are both -1,
    the two tables are read at index -1, and both entries are undefined. *)
Lemma fromOffset_negative_counterexample :
  JS.rem (-1) 10 = -1 /\ JS.rem (-1) 12 = -1 /\
  heavenlyStemAndEarthlyBranchFromOffset (-1) = (None, None).
Proof. repeat split. Qed.

(** What the conversion does below zero: an entry is defined exactly when
    the offset is a multiple of its modulus. *)
Lemma fromOffset_negative (offset : Z) :
  offset < 0 ->
  (fst (heavenlyStemAndEarthlyBranchFromOffset offset) <> None
   <-> offset mod 10 = 0) /\
  (snd (heavenlyStemAndEarthlyBranchFromOffset offset) <> None
   <-> offset mod 12 = 0).
Proof.
  intros Ho. unfold heavenlyStemAndEarthlyBranchFromOffset. simpl.
  pose proof (rem_nonpos_range offset 10 ltac:(lia) ltac:(lia)) as Hs.
  pose proof (rem_nonpos_range offset 12 ltac:(lia) ltac:(lia)) as Hb.
  assert (Es : JS.rem offset 10 = 0 <-> offset mod 10 = 0)
    by (unfold JS.rem; Z.to_euclidean_division_equations; lia).
  assert (Eb : JS.rem offset 12 = 0 <-> offset mod 12 = 0)
    by (unfold JS.rem; Z.to_euclidean_division_equations; lia).
  split; split; intros H.
  - apply Es. destruct (Z.eq_dec (JS.rem offset 10) 0) as [E|E]; [exact E|].
    rewrite get_negative in H by lia. congruence.
  - apply Es in H. rewrite H. discriminate.
  - apply Eb. destruct (Z.eq_dec (JS.rem offset 12) 0) as [E|E]; [exact E|].
    rewrite get_negative in H by lia. congruence.
  - apply Eb in H. rewrite H. discriminate.
Qed.

(** ** The year pillar *)

(** The year pillar is a function of the two remainders only. *)
Lemma ofYear_by_remainders (y y' : Z) :
  JS.rem (JS.sub y 3) 10 = JS.rem (JS.sub y' 3) 10 ->
  JS.rem (JS.sub y 3) 12 = JS.rem (JS.sub y' 3) 12 ->
  heavenlyStemAndEarthlyBranchOfYear y
  = heavenlyStemAndEarthlyBranchOfYear y'.
Proof.
  intros H10 H12. unfold heavenlyStemAndEarthlyBranchOfYear.
  now rewrite H10, H12.
Qed.

Lemma oneBasedRemainder_range (n m : Z) :
  0 < m -> 1 <= oneBasedRemainder n m <= m.
Proof.
  intros Hm. unfold oneBasedRemainder.
  pose proof (Z.mod_pos_bound n m Hm).
  destruct (n mod m =? 0) eqn:E; [lia|apply Z.eqb_neq in E; lia].
Qed.

(** C3, as amended: for every integer year from 3 up to 2^53 (the range
    in which [year - 3] is computed exactly), the year rule of the code
    returns the stem and the branch that the 1-based remainder convention
    selects (a remainder of 0 read as 10 or 12), and both are defined
    table entries. *)
Theorem ofYear_one_based_remainder (year : Z) :
  3 <= year <= 9007199254740992 ->
  heavenlyStemAndEarthlyBranchOfYear year = yearPillarSpec year /\
  (exists s b, heavenlyStemAndEarthlyBranchOfYear year = (Some s, Some b)).
Proof.
  intros Hy.
  assert (E : heavenlyStemAndEarthlyBranchOfYear year = yearPillarSpec year).
  { unfold heavenlyStemAndEarthlyBranchOfYear, yearPillarSpec,
      oneBasedRemainder.
    rewrite sub_exact by lia.
    now rewrite !rem_nonneg_mod by lia. }
  split; [exact E|]. rewrite E. unfold yearPillarSpec.
  pose proof (oneBasedRemainder_range (year - 3) 10 ltac:(lia)) as Hs.
  pose proof (oneBasedRemainder_range (year - 3) 12 ltac:(lia)) as Hb.
  destruct (get_stem_defined (oneBasedRemainder (year - 3) 10 - 1))
    as [s Es]; [lia|].
  destruct (get_branch_defined (oneBasedRemainder (year - 3) 12 - 1))
    as [b Eb]; [lia|].
  exists s, b. now rewrite Es, Eb.
Qed.

Lemma ofYear_one_based_remainder_witness :
  3 <= 1984 <= 9007199254740992 /\
  (heavenlyStemAndEarthlyBranchOfYear 1984 = yearPillarSpec 1984 /\
   (exists s b,
       heavenlyStemAndEarthlyBranchOfYear 1984 = (Some s, Some b))).
Proof. split; [lia | apply (ofYear_one_based_remainder 1984); lia]. Defined.

(** C3 as stated fails on both sides of that range. At year 2 the cycle
    continued backwards gives the ninth stem and the eleventh branch,
    while the code computes [(2 - 3) % 10 = -1], reads both tables at
    index -2 and returns two undefined entries. At year 9007199254740996
    the difference [year - 3] is not a binary64 value and is rounded to
    2^53, so the code returns the second stem and the eighth branch,
    while the remainders of the exact difference select the third stem
    and the ninth branch. *)
Lemma ofYear_below_three_counterexample :
  (JS.rem (JS.sub 2 3) 10 = -1 /\
   heavenlyStemAndEarthlyBranchOfYear 2 = (None, None) /\
   yearPillarSpec 2 = (Some renHeavenly, Some xuEarthly) /\
   heavenlyStemAndEarthlyBranchOfYear 2 <> yearPillarSpec 2) /\
  (JS.sub 9007199254740996 3 = 9007199254740992 /\
   heavenlyStemAndEarthlyBranchOfYear 9007199254740996
   = (Some yiHeavenly, Some weiEarthly) /\
   yearPillarSpec 9007199254740996 = (Some bingHeavenly, Some shenEarthly) /\
   heavenlyStemAndEarthlyBranchOfYear 9007199254740996
   <> yearPillarSpec 9007199254740996).
Proof. repeat split; discriminate. Qed.

Lemma ofYear_1984 :
  heavenlyStemAndEarthlyBranchOfYear 1984 = (Some jiaHeavenly, Some ziEarthly).
Proof. reflexivity. Qed.

(** Between -57 and 3 the year pillar and the one sixty years later
    differ. *)
Lemma ofYear_period_fails_between (y : Z) :
  -57 < y < 3 ->
  heavenlyStemAndEarthlyBranchOfYear y
  <> heavenlyStemAndEarthlyBranchOfYear (y + 60).
Proof.
  intros Hy.
  assert (E : y = -56 + Z.of_nat (Z.to_nat (y + 56))) by lia.
  assert (B : (Z.to_nat (y + 56) < 59)%nat) by lia.
  revert E B. generalize (Z.to_nat (y + 56)). intros n E B. subst y.
  do 59 (destruct n as [|n]; [vm_compute; discriminate|]).
  lia.
Qed.

(** C4, as amended: while [y - 3] and [y + 60] stay within 2^53 in
    magnitude (so that every difference is computed exactly), the year
    pillar of [y] equals that of [y + 60] for every integer [y] from 3 on
    (and, among years whose pillar is not fully defined, for [y] up to
    -57); it does so for no other [y] of that range. *)
Theorem ofYear_period_60 (y : Z) :
  - 9007199254740989 <= y <= 9007199254740932 ->
  heavenlyStemAndEarthlyBranchOfYear y
  = heavenlyStemAndEarthlyBranchOfYear (y + 60)
  <-> (3 <= y \/ y <= -57).
Proof.
  intros Hr. split.
  - intros E.
    destruct (Z_le_gt_dec 3 y) as [H|H]; [now left|].
    destruct (Z_le_gt_dec y (-57)) as [H'|H']; [now right|].
    exfalso. revert E. apply ofYear_period_fails_between. lia.
  - intros H. apply ofYear_by_remainders; rewrite !sub_exact by lia;
      unfold JS.rem; Z.to_euclidean_division_equations; lia.
Qed.

Lemma ofYear_period_60_witness :
  - 9007199254740989 <= 1964 <= 9007199254740932 /\
  (heavenlyStemAndEarthlyBranchOfYear 1964
   = heavenlyStemAndEarthlyBranchOfYear (1964 + 60)
   <-> (3 <= 1964 \/ 1964 <= -57)).
Proof. split; [lia | apply (ofYear_period_60 1964); lia]. Defined.

(** C4 as stated fails on both sides of that range. The code returns two
    undefined entries for year 0 and the seventh stem with the ninth
    branch for year 60. For the year 9007199254740990, sixty years later
    the difference [year - 3] is rounded to the even 9007199254741048,
    and the two pillars differ. *)
Lemma ofYear_period_counterexample :
  (heavenlyStemAndEarthlyBranchOfYear 0 = (None, None) /\
   heavenlyStemAndEarthlyBranchOfYear (0 + 60)
   = (Some gengHeavenly, Some shenEarthly) /\
   heavenlyStemAndEarthlyBranchOfYear 0
   <> heavenlyStemAndEarthlyBranchOfYear (0 + 60)) /\
  (JS.sub (9007199254740990 + 60) 3 = 9007199254741048 /\
   heavenlyStemAndEarthlyBranchOfYear 9007199254740990
   = (Some gengHeavenly, Some yinEarthly) /\
   heavenlyStemAndEarthlyBranchOfYear (9007199254740990 + 60)
   = (Some xinHeavenly, Some maoEarthly) /\
   heavenlyStemAndEarthlyBranchOfYear 9007199254740990
   <> heavenlyStemAndEarthlyBranchOfYear (9007199254740990 + 60)).
Proof. repeat split; discriminate. Qed.

(** ** Positions in the cycle of sixty *)

Lemma fromOffset_mod_60 (o : Z) :
  0 <= o ->
  heavenlyStemAndEarthlyBranchFromOffset o
  = heavenlyStemAndEarthlyBranchFromOffset (o mod 60).
Proof.
  intros Ho. unfold heavenlyStemAndEarthlyBranchFromOffset.
  pose proof (Z.mod_pos_bound o 60 ltac:(lia)) as Hb.
  rewrite !rem_nonneg_mod by lia.
  replace ((o mod 60) mod 10) with (o mod 10)
    by (Z.to_euclidean_division_equations; lia).
  replace ((o mod 60) mod 12) with (o mod 12)
    by (Z.to_euclidean_division_equations; lia).
  reflexivity.
Qed.

Lemma cyclePosition_below_60 (k : Z) :
  0 <= k < 60 ->
  cyclePosition (heavenlyStemAndEarthlyBranchFromOffset k) = Some k.
Proof.
  intros Hk.
  assert (E : k = Z.of_nat (Z.to_nat k)) by lia.
  assert (B : (Z.to_nat k < 60)%nat) by lia.
  revert E B. generalize (Z.to_nat k). intros n E B. subst k.
  do 60 (destruct n as [|n]; [reflexivity|]).
  lia.
Qed.

Lemma cyclePosition_fromOffset (o : Z) :
  0 <= o ->
  cyclePosition (heavenlyStemAndEarthlyBranchFromOffset o) = Some (o mod 60).
Proof.
  intros Ho. rewrite fromOffset_mod_60 by assumption.
  apply cyclePosition_below_60. apply Z.mod_pos_bound. lia.
Qed.

(** A pair with an undefined entry has no position in the cycle. *)
Lemma cyclePosition_undefined (b : option EarthlyBranch) :
  cyclePosition (None, b) = None.
Proof. reflexivity. Qed.

(** ** The month, day and hour rules and the aggregate queries *)

Section RulesProperties.

Context {collab : Collaborators}.
Variable RAT_RULE : HeavenlyStem -> HeavenlyStem.

(** *** Month pillar *)

(** C2: for every solar date [(year, month, day)], the month rule takes
    the base offset [(year - 1900) * 12 + month + 11] and returns the
    pillar of [offset + 1] when [day >= getTerm(year, month * 2 - 1)]
    (the boundary day included) and the pillar of [offset] otherwise. *)
Theorem ofMonth_term_boundary (date : SolarDate) (year month day : Z) :
  normalizeSolarDateStr date = (year, month, day) ->
  (day >= getTerm year (month * 2 - 1) ->
   heavenlyStemAndEarthlyBranchOfMonth date
   = heavenlyStemAndEarthlyBranchFromOffset
       ((year - 1900) * 12 + month + 11 + 1))
  /\ (day < getTerm year (month * 2 - 1) ->
      heavenlyStemAndEarthlyBranchOfMonth date
      = heavenlyStemAndEarthlyBranchFromOffset
          ((year - 1900) * 12 + month + 11)).
Proof.
  intros N. unfold heavenlyStemAndEarthlyBranchOfMonth. rewrite N.
  destruct (day >=? getTerm year (month * 2 - 1)) eqn:E.
  - split; [reflexivity|]. intros H. apply Z.geb_le in E. lia.
  - split; [|reflexivity]. intros H.
    rewrite Z.geb_leb in E. apply Z.leb_gt in E. lia.
Qed.


(** *** Day pillar *)



(** The day offset away from the sentinel does not read the index. *)
Lemma dayOffset_not_sentinel (date : SolarDate) (t1 t2 : Z) :
  t1 <> 12 -> t2 <> 12 -> dayOffset date t1 = dayOffset date t2.
Proof.
  intros H1 H2. unfold dayOffset.
  destruct (normalizeSolarDateStr date) as [[year month] day].
  apply Z.eqb_neq in H1, H2. now rewrite H1, H2.
Qed.

(** For every date, the sentinel adds exactly one to the number handed
    to the offset conversion ([NaN] staying [NaN]). *)
Lemma dayOffset_sentinel (date : SolarDate) (t : Z) :
  t <> 12 ->
  dayOffset date 12 = option_map (fun o => o + 1) (dayOffset date t).
Proof.
  intros Ht. unfold dayOffset.
  destruct (normalizeSolarDateStr date) as [[year month] day].
  apply Z.eqb_neq in Ht. rewrite Ht. simpl (12 =? 12).
  destruct (JS.Date_UTC year (month - 1) 1) as [ms|]; simpl; [|reflexivity].
  f_equal. lia.
Qed.

(** C5, as amended: for every solar date whose day offset with
    [timeIndex = 11] is a non-negative integer [o] (the dates from
    1899-12-22 on), the day rule with [timeIndex = 12] is handed [o + 1]
    and yields the pillar one position further in the cycle of sixty
    than the pillar it yields with [timeIndex = 11]. *)
Theorem ofDay_late_zi_one_ahead (date : SolarDate) (o : Z) :
  dayOffset date 11 = Some o ->
  0 <= o ->
  dayOffset date 12 = Some (o + 1) /\
  cyclePosition (heavenlyStemAndEarthlyBranchOfDay date 11)
  = Some (o mod 60) /\
  cyclePosition (heavenlyStemAndEarthlyBranchOfDay date 12)
  = Some ((o mod 60 + 1) mod 60).
Proof.
  intros E Ho.
  assert (E12 : dayOffset date 12 = Some (o + 1))
    by (rewrite (dayOffset_sentinel date 11) by lia; now rewrite E).
  split; [exact E12|].
  unfold heavenlyStemAndEarthlyBranchOfDay. rewrite E, E12.
  unfold heavenlyStemAndEarthlyBranchFromNumber.
  rewrite !cyclePosition_fromOffset by lia.
  split; [reflexivity|]. f_equal.
  rewrite Z.add_mod_idemp_l by lia. reflexivity.
Qed.

(** C10: for every solar date and every two indices in 0..11, the day
    rule returns the same pillar; the index matters only as the
    sentinel 12. *)
Theorem ofDay_ignores_hour_below_12 (date : SolarDate) (t1 t2 : Z) :
  0 <= t1 <= 11 -> 0 <= t2 <= 11 ->
  heavenlyStemAndEarthlyBranchOfDay date t1
  = heavenlyStemAndEarthlyBranchOfDay date t2.
Proof.
  intros H1 H2. unfold heavenlyStemAndEarthlyBranchOfDay.
  now rewrite (dayOffset_not_sentinel date t1 t2) by lia.
Qed.

(** *** Hour pillar *)

(** C6: for every [timeIndex] in 0..11 and every day stem, the hour rule
    of the code returns the stem and the branch of the formula of the
    specification, whose stem advance is reduced modulo 10: the stem at
    [(indexOf(RAT_RULE[s]) + timeIndex) mod 10], although the inner
    [fixIndex(timeIndex)] of the code uses the default modulus 12, and
    the branch at [timeIndex]. *)
Theorem ofTime_stem_advance_mod_10 (timeIndex : Z) (s : HeavenlyStem) :
  0 <= timeIndex <= 11 ->
  heavenlyStemAndEarthlyBranchOfTime RAT_RULE timeIndex (Some s)
  = hourPillarSpec RAT_RULE timeIndex s /\
  heavenlyStemAndEarthlyBranchOfTime RAT_RULE timeIndex (Some s)
  = (JS.get HEAVENLY_STEMS
       ((JS.indexOf HeavenlyStem_eqb HEAVENLY_STEMS (Some (RAT_RULE s))
         + timeIndex) mod 10),
     JS.get EARTHLY_BRANCHES timeIndex).
Proof.
  intros Ht.
  unfold heavenlyStemAndEarthlyBranchOfTime, hourPillarSpec,
    fixIndexDefault, fixIndex.
  simpl option_map.
  rewrite (Z.mod_small timeIndex 12) by lia.
  rewrite Z.add_mod_idemp_r by lia.
  split; reflexivity.
Qed.

(** C9: for every day stem, the hour rule at the sentinel 12 returns the
    pillar it returns at 0, [fixIndex] sending 12 to 0; its branch is
    the first one. *)
Theorem ofTime_sentinel_is_zero (s : HeavenlyStem) :
  heavenlyStemAndEarthlyBranchOfTime RAT_RULE 12 (Some s)
  = heavenlyStemAndEarthlyBranchOfTime RAT_RULE 0 (Some s) /\
  snd (heavenlyStemAndEarthlyBranchOfTime RAT_RULE 12 (Some s))
  = Some ziEarthly.
Proof.
  unfold heavenlyStemAndEarthlyBranchOfTime, fixIndexDefault, fixIndex.
  change (12 mod 12) with 0. change (0 mod 12) with 0.
  split; reflexivity.
Qed.

(** *** Aggregate queries *)


End RulesProperties.

(** ** Consecutive calendar days *)

Lemma InLeapYear_true (y : Z) :
  JS.InLeapYear y = true <->
  (y mod 4 = 0 /\ y mod 100 <> 0) \/ y mod 400 = 0.
Proof.
  unfold JS.InLeapYear.
  rewrite orb_true_iff, andb_true_iff, negb_true_iff, !Z.eqb_eq, Z.eqb_neq.
  reflexivity.
Qed.

Lemma DayFromYear_succ (y : Z) :
  JS.DayFromYear (y + 1)
  = JS.DayFromYear y + (if JS.InLeapYear y then 366 else 365).
Proof.
  pose proof (InLeapYear_true y) as L.
  destruct (JS.InLeapYear y).
  - assert (H : (y mod 4 = 0 /\ y mod 100 <> 0) \/ y mod 400 = 0)
      by (now apply L).
    clear L. unfold JS.DayFromYear.
    Z.to_euclidean_division_equations. lia.
  - assert (H : ~ ((y mod 4 = 0 /\ y mod 100 <> 0) \/ y mod 400 = 0))
      by (intros H; apply L in H; discriminate).
    clear L. unfold JS.DayFromYear.
    Z.to_euclidean_division_equations. lia.
Qed.

Lemma month_cases (m : Z) :
  1 <= m <= 12 ->
  m = 1 \/ m = 2 \/ m = 3 \/ m = 4 \/ m = 5 \/ m = 6 \/ m = 7 \/ m = 8
  \/ m = 9 \/ m = 10 \/ m = 11 \/ m = 12.
Proof. lia. Qed.

Ltac each_month H :=
  apply month_cases in H;
  repeat (destruct H as [H|H]; [subst|]); [..|subst].

Lemma validSolarDate_inv (y m d : Z) :
  validSolarDate (y, m, d) = true ->
  1 <= m <= 12 /\ 1 <= d <= DaysInMonth y m.
Proof.
  unfold validSolarDate. rewrite !andb_true_iff, !Z.leb_le. lia.
Qed.

Lemma DaysInMonth_range (y m : Z) : 28 <= DaysInMonth y m <= 31.
Proof.
  unfold DaysInMonth.
  destruct (JS.InLeapYear y); destruct m as [|p|p]; simpl; try lia;
    repeat match goal with
           | |- context [match ?q with _ => _ end] => destruct q; simpl
           end; lia.
Qed.

Lemma MakeDay_in_year (y mn d : Z) :
  0 <= mn <= 11 ->
  JS.MakeDay y mn d
  = JS.DayFromYear y + JS.DayWithinYear (JS.InLeapYear y) mn + d - 1.
Proof.
  intros H. unfold JS.MakeDay.
  rewrite Z.div_small, Z.mod_small, Z.add_0_r by lia. reflexivity.
Qed.

Lemma DayWithinYear_succ (y m : Z) :
  1 <= m <= 11 ->
  JS.DayWithinYear (JS.InLeapYear y) m
  = JS.DayWithinYear (JS.InLeapYear y) (m - 1) + DaysInMonth y m.
Proof.
  intros Hm. assert (Hm' : 1 <= m <= 12) by lia.
  unfold DaysInMonth.
  destruct (JS.InLeapYear y); each_month Hm'; try lia; reflexivity.
Qed.

(** Within a year, the first day of the next month follows the last day
    of the month. *)
Lemma MakeDay_next_month (y m : Z) :
  1 <= m <= 11 ->
  JS.MakeDay y m 1 = JS.MakeDay y (m - 1) (DaysInMonth y m) + 1.
Proof.
  intros Hm. rewrite !MakeDay_in_year by lia.
  rewrite (DayWithinYear_succ y m Hm). lia.
Qed.

Lemma MakeDay_next_year (y : Z) :
  JS.MakeDay (y + 1) 0 1 = JS.MakeDay y 11 (DaysInMonth y 12) + 1.
Proof.
  rewrite !MakeDay_in_year by lia. rewrite DayFromYear_succ.
  change (DaysInMonth y 12) with 31.
  destruct (JS.InLeapYear y), (JS.InLeapYear (y + 1));
    change (JS.DayWithinYear _ 0) with 0;
    cbv [JS.DayWithinYear]; lia.
Qed.

(** The day after a valid date has the next day number. *)
Lemma epochDay_nextSolarDay (ymd : Z * Z * Z) :
  validSolarDate ymd = true ->
  epochDay (nextSolarDay ymd) = epochDay ymd + 1.
Proof.
  destruct ymd as [[y m] d]. intros V.
  apply validSolarDate_inv in V. destruct V as [Hm Hd].
  unfold nextSolarDay, epochDay.
  destruct (d <? DaysInMonth y m) eqn:E.
  - unfold JS.MakeDay. lia.
  - apply Z.ltb_ge in E. assert (d = DaysInMonth y m) by lia. subst d.
    destruct (m <? 12) eqn:E12.
    + apply Z.ltb_lt in E12.
      replace (m + 1 - 1) with m by lia. apply MakeDay_next_month. lia.
    + apply Z.ltb_ge in E12. assert (m = 12) by lia. subst m.
      apply MakeDay_next_year.
Qed.

Lemma nextSolarDay_valid (ymd : Z * Z * Z) :
  validSolarDate ymd = true ->
  validSolarDate (nextSolarDay ymd) = true /\
  fst (fst ymd) <= fst (fst (nextSolarDay ymd)).
Proof.
  destruct ymd as [[y m] d]. intros V.
  apply validSolarDate_inv in V. destruct V as [Hm Hd].
  unfold nextSolarDay.
  destruct (d <? DaysInMonth y m) eqn:E.
  - apply Z.ltb_lt in E. simpl. split; [|lia].
    rewrite !andb_true_iff, !Z.leb_le. lia.
  - destruct (m <? 12) eqn:E12.
    + apply Z.ltb_lt in E12. simpl. split; [|lia].
      pose proof (DaysInMonth_range y (m + 1)).
      rewrite !andb_true_iff, !Z.leb_le. lia.
    + simpl. split; [reflexivity|lia].
Qed.

Lemma DayFromYear_lower (y : Z) : 100 <= y -> -100000000 <= JS.DayFromYear y.
Proof.
  intros Hy. unfold JS.DayFromYear. Z.to_euclidean_division_equations. lia.
Qed.

Lemma DayWithinYear_nonneg (leap : bool) (m : Z) :
  1 <= m <= 12 -> 0 <= JS.DayWithinYear leap (m - 1).
Proof.
  intros Hm. each_month Hm; destruct leap; cbv; discriminate.
Qed.

Lemma TimeClip_days (days : Z) :
  -100000000 <= days <= 100000000 ->
  JS.TimeClip (days * JS.msPerDay) = Some (days * JS.msPerDay).
Proof.
  intros H. unfold JS.TimeClip, JS.msPerDay.
  destruct (Z.abs (days * 86400000) <=? 8640000000000000) eqn:E;
    [reflexivity|].
  apply Z.leb_gt in E. lia.
Qed.

Section ConsecutiveDays.

Context {collab : Collaborators}.

(** From year 100 on, the day offset is the day number of the date
    moved by the calibration constant (and by one for the sentinel). *)
Lemma dayOffset_epochDay (date : SolarDate) (y m d t : Z) :
  normalizeSolarDateStr date = (y, m, d) ->
  100 <= y -> 1 <= m <= 12 -> 1 <= d ->
  epochDay (y, m, d) <= 100000000 ->
  dayOffset date t
  = Some (epochDay (y, m, d) + 25577 + (if t =? 12 then 1 else 0)).
Proof.
  intros N Hy Hm Hd Hr. unfold dayOffset. rewrite N.
  unfold JS.Date_UTC, JS.MakeFullYear, epochDay in *.
  replace (y <=? 99) with false by (symmetry; apply Z.leb_gt; lia).
  rewrite andb_false_r.
  rewrite MakeDay_in_year in * by lia.
  pose proof (DayFromYear_lower y Hy) as Hl.
  pose proof (DayWithinYear_nonneg (JS.InLeapYear y) m Hm) as Hw.
  rewrite TimeClip_days by lia.
  unfold JS.msPerDay. rewrite Z.div_mul by lia.
  rewrite (MakeDay_in_year y (m - 1) d) by lia.
  f_equal. lia.
Qed.

(** From 1900 on (the range of the conversion tables) the day offset is
    never negative: 1900-01-01 has offset 10. *)
Lemma dayOffset_nonneg_since_1900 (date : SolarDate) (y m d t : Z) :
  normalizeSolarDateStr date = (y, m, d) ->
  1900 <= y -> 1 <= m <= 12 -> 1 <= d ->
  epochDay (y, m, d) <= 100000000 ->
  exists o, dayOffset date t = Some o /\ 10 <= o.
Proof.
  intros N Hy Hm Hd Hr.
  rewrite (dayOffset_epochDay date y m d t N) by (try assumption; lia).
  eexists. split; [reflexivity|].
  unfold epochDay. rewrite MakeDay_in_year by lia.
  pose proof (DayWithinYear_nonneg (JS.InLeapYear y) m Hm) as Hw.
  assert (Hl : -25567 <= JS.DayFromYear y)
    by (unfold JS.DayFromYear; Z.to_euclidean_division_equations; lia).
  destruct (t =? 12); lia.
Qed.

(** C7, as amended: for every pair of consecutive calendar days [d] and
    [d + 1] from year 100 on that a [Date] can hold (month and year
    boundaries included) and the same [timeIndex], the day offset of
    [d + 1] is exactly one more than that of [d]; and when the offset of
    [d] is not negative (the days from 1899-12-22 on) the two pillars
    stand at adjacent positions of the cycle of sixty, position 59
    being followed by position 0. *)
Theorem consecutive_days_adjacent (date date' : SolarDate)
        (ymd : Z * Z * Z) (timeIndex : Z) :
  normalizeSolarDateStr date = ymd ->
  normalizeSolarDateStr date' = nextSolarDay ymd ->
  validSolarDate ymd = true ->
  100 <= fst (fst ymd) ->
  representable (nextSolarDay ymd) = true ->
  exists o,
    dayOffset date timeIndex = Some o /\
    dayOffset date' timeIndex = Some (o + 1) /\
    (0 <= o ->
     cyclePosition (heavenlyStemAndEarthlyBranchOfDay date timeIndex)
     = Some (o mod 60) /\
     cyclePosition (heavenlyStemAndEarthlyBranchOfDay date' timeIndex)
     = Some ((o mod 60 + 1) mod 60)).
Proof.
  intros N N' V Hy R.
  pose proof (epochDay_nextSolarDay ymd V) as Enext.
  destruct (nextSolarDay_valid ymd V) as [V' Hy'].
  unfold representable in R. apply Z.leb_le in R.
  destruct ymd as [[y m] d].
  destruct (nextSolarDay (y, m, d)) as [[y' m'] d'] eqn:Nx.
  simpl in Hy, Hy'.
  apply validSolarDate_inv in V. apply validSolarDate_inv in V'.
  assert (E : dayOffset date timeIndex
              = Some (epochDay (y, m, d) + 25577
                      + (if timeIndex =? 12 then 1 else 0)))
    by (apply dayOffset_epochDay; try assumption; lia).
  assert (E' : dayOffset date' timeIndex
               = Some (epochDay (y', m', d') + 25577
                       + (if timeIndex =? 12 then 1 else 0)))
    by (apply dayOffset_epochDay; try assumption; lia).
  eexists. split; [exact E|]. split; [rewrite E'; f_equal; lia|].
  intros Ho. unfold heavenlyStemAndEarthlyBranchOfDay. rewrite E, E'.
  unfold heavenlyStemAndEarthlyBranchFromNumber.
  rewrite !cyclePosition_fromOffset by lia.
  split; [reflexivity|]. f_equal.
  rewrite Z.add_mod_idemp_l by lia. f_equal. lia.
Qed.

End ConsecutiveDays.

(** ** The rules on concrete dates *)

#[local] Existing Instance Sample.collaborators.

Lemma ofMonth_term_boundary_witness :
  normalizeSolarDateStr (Collaborators := Sample.collaborators) (2023, 6, 6)
  = (2023, 6, 6) /\
  6 >= getTerm (Collaborators := Sample.collaborators) 2023 (6 * 2 - 1) /\
  Sample.ofMonth (2023, 6, 6)
  = heavenlyStemAndEarthlyBranchFromOffset ((2023 - 1900) * 12 + 6 + 11 + 1).
Proof.
  split; [reflexivity|]. split; [simpl; lia|].
  apply (proj1 (ofMonth_term_boundary (collab := Sample.collaborators)
                  (2023, 6, 6) 2023 6 6 eq_refl)).
  simpl. lia.
Defined.

Lemma ofDay_late_zi_one_ahead_witness :
  Sample.offsetOfDay (2023, 6, 18) 11 = Some 45103 /\
  0 <= 45103 /\
  (Sample.offsetOfDay (2023, 6, 18) 12 = Some (45103 + 1) /\
   cyclePosition (Sample.ofDay (2023, 6, 18) 11) = Some (45103 mod 60) /\
   cyclePosition (Sample.ofDay (2023, 6, 18) 12)
   = Some ((45103 mod 60 + 1) mod 60)).
Proof.
  split; [reflexivity|]. split; [lia|].
  apply (ofDay_late_zi_one_ahead (collab := Sample.collaborators)
           (2023, 6, 18) 45103); [reflexivity|lia].
Defined.

(** C5 as stated fails on 1850-01-01: the day offset is -18252 with
    [timeIndex = 11] and -18251 with [timeIndex = 12]; the stem table is
    read at -2 and at -1, so neither call yields a pillar of the cycle. *)
Lemma ofDay_late_zi_counterexample :
  Sample.offsetOfDay (1850, 1, 1) 11 = Some (-18252) /\
  Sample.offsetOfDay (1850, 1, 1) 12 = Some (-18251) /\
  Sample.ofDay (1850, 1, 1) 11 = (None, Some ziEarthly) /\
  Sample.ofDay (1850, 1, 1) 12 = (None, None) /\
  cyclePosition (Sample.ofDay (1850, 1, 1) 11) = None /\
  cyclePosition (Sample.ofDay (1850, 1, 1) 12) = None.
Proof. repeat split. Qed.

Lemma ofDay_ignores_hour_below_12_witness :
  0 <= 0 <= 11 /\ 0 <= 11 <= 11 /\
  Sample.ofDay (2023, 6, 18) 0 = Sample.ofDay (2023, 6, 18) 11.
Proof.
  split; [lia|]. split; [lia|].
  apply (ofDay_ignores_hour_below_12 (collab := Sample.collaborators)
           (2023, 6, 18) 0 11); lia.
Defined.

Lemma ofTime_stem_advance_mod_10_witness :
  0 <= 11 <= 11 /\
  (Sample.ofTime 11 (Some jiaHeavenly)
   = hourPillarSpec traditionalRatRule 11 jiaHeavenly /\
   Sample.ofTime 11 (Some jiaHeavenly)
   = (JS.get HEAVENLY_STEMS
        ((JS.indexOf HeavenlyStem_eqb HEAVENLY_STEMS
            (Some (traditionalRatRule jiaHeavenly)) + 11) mod 10),
      JS.get EARTHLY_BRANCHES 11)).
Proof.
  split; [lia|].
  apply (ofTime_stem_advance_mod_10 traditionalRatRule 11 jiaHeavenly); lia.
Defined.

(** The first day stem at the first double-hour: the first pillar. *)
Lemma ofTime_jia_zi :
  Sample.ofTime 0 (Some jiaHeavenly) = (Some jiaHeavenly, Some ziEarthly).
Proof. reflexivity. Qed.

(** Past 11 the two formulas part: at the sentinel the code advances the
    stem by 0 and the formula of the specification by 2. *)
Lemma ofTime_sentinel_differs_from_spec :
  Sample.ofTime 12 (Some jiaHeavenly) = (Some jiaHeavenly, Some ziEarthly) /\
  hourPillarSpec traditionalRatRule 12 jiaHeavenly
  = (Some bingHeavenly, Some ziEarthly).
Proof. split; reflexivity. Qed.



(** The text of a result: four pillars of two symbols each. *)
Lemma sample_text :
  toString (Sample.bySolarDate 2) tt = "癸卯 戊午 丁未 壬寅"%string.
Proof. reflexivity. Qed.

Lemma consecutive_days_adjacent_witness :
  normalizeSolarDateStr (Collaborators := Sample.collaborators) (2023, 12, 31)
  = (2023, 12, 31) /\
  normalizeSolarDateStr (Collaborators := Sample.collaborators) (2024, 1, 1)
  = nextSolarDay (2023, 12, 31) /\
  validSolarDate (2023, 12, 31) = true /\
  100 <= fst (fst (2023, 12, 31)) /\
  representable (nextSolarDay (2023, 12, 31)) = true /\
  (exists o,
      Sample.offsetOfDay (2023, 12, 31) 0 = Some o /\
      Sample.offsetOfDay (2024, 1, 1) 0 = Some (o + 1) /\
      (0 <= o ->
       cyclePosition (Sample.ofDay (2023, 12, 31) 0) = Some (o mod 60) /\
       cyclePosition (Sample.ofDay (2024, 1, 1) 0)
       = Some ((o mod 60 + 1) mod 60))).
Proof.
  split; [reflexivity|]. split; [reflexivity|]. split; [reflexivity|].
  split; [simpl; lia|]. split; [reflexivity|].
  apply (consecutive_days_adjacent (collab := Sample.collaborators)
           (2023, 12, 31) (2024, 1, 1) (2023, 12, 31) 0);
    [reflexivity|reflexivity|reflexivity|simpl; lia|reflexivity].
Defined.

(** C7 as stated fails twice. From 1899-12-20 to 1899-12-21 the offset
    goes from -2 to -1 and neither day yields a pillar of the cycle. From
    0099-12-31 to 0100-01-01 the offset itself jumps, [Date.UTC] reading
    the year 99 as 1999. *)
Lemma consecutive_days_counterexample :
  (validSolarDate (1899, 12, 20) = true /\
   nextSolarDay (1899, 12, 20) = (1899, 12, 21) /\
   Sample.offsetOfDay (1899, 12, 20) 0 = Some (-2) /\
   Sample.offsetOfDay (1899, 12, 21) 0 = Some (-1) /\
   Sample.ofDay (1899, 12, 20) 0 = (None, None) /\
   Sample.ofDay (1899, 12, 21) 0 = (None, None) /\
   cyclePosition (Sample.ofDay (1899, 12, 20) 0) = None /\
   cyclePosition (Sample.ofDay (1899, 12, 21) 0) = None) /\
  (validSolarDate (99, 12, 31) = true /\
   nextSolarDay (99, 12, 31) = (100, 1, 1) /\
   Sample.offsetOfDay (99, 12, 31) 0 = Some 36533 /\
   Sample.offsetOfDay (100, 1, 1) 0 = Some (-657426)).
Proof. repeat split. Qed.

(** * Further properties of the rules *)

(** ** The offset conversion as a cycle of sixty *)

(** Two non-negative offsets give the same pillar exactly when they agree
    modulo 60. *)
Lemma fromOffset_same_iff (a b : Z) :
  0 <= a -> 0 <= b ->
  heavenlyStemAndEarthlyBranchFromOffset a
  = heavenlyStemAndEarthlyBranchFromOffset b
  <-> a mod 60 = b mod 60.
Proof.
  intros Ha Hb. split; intros E.
  - apply (f_equal cyclePosition) in E.
    rewrite !cyclePosition_fromOffset in E by assumption. congruence.
  - rewrite (fromOffset_mod_60 a), (fromOffset_mod_60 b) by assumption.
    now rewrite E.
Qed.

(** X1: the offset conversion has period exactly 60 on the non-negative
    offsets: moving a non-negative offset forward by [k] gives the same
    pillar if and only if [k] is a multiple of 60. *)
Theorem fromOffset_period_exactly_60 (offset k : Z) :
  0 <= offset -> 0 <= k ->
  heavenlyStemAndEarthlyBranchFromOffset (offset + k)
  = heavenlyStemAndEarthlyBranchFromOffset offset
  <-> k mod 60 = 0.
Proof.
  intros Ho Hk. rewrite fromOffset_same_iff by lia.
  split; intros E; Z.to_euclidean_division_equations; lia.
Qed.

Lemma fromOffset_period_exactly_60_witness :
  0 <= 7 /\ 0 <= 120 /\
  (heavenlyStemAndEarthlyBranchFromOffset (7 + 120)
   = heavenlyStemAndEarthlyBranchFromOffset 7
   <-> 120 mod 60 = 0).
Proof.
  split; [lia|]. split; [lia|].
  apply (fromOffset_period_exactly_60 7 120); lia.
Defined.

(** X2: whatever the offset, when both entries of the converted pair are
    defined, the table indices of the stem and of the branch have the same
    parity: only 60 of the 120 stem-branch pairs are ever returned. *)
Theorem fromOffset_same_parity (offset : Z) (s : HeavenlyStem)
        (b : EarthlyBranch) :
  heavenlyStemAndEarthlyBranchFromOffset offset = (Some s, Some b) ->
  JS.indexOf HeavenlyStem_eqb HEAVENLY_STEMS (Some s) mod 2
  = JS.indexOf EarthlyBranch_eqb EARTHLY_BRANCHES (Some b) mod 2.
Proof.
  intros E.
  assert (K : exists k, 0 <= k < 60 /\
                heavenlyStemAndEarthlyBranchFromOffset k = (Some s, Some b)).
  { destruct (Z_lt_ge_dec offset 0) as [Hneg|Hpos].
    - exists 0. split; [lia|].
      destruct (fromOffset_negative offset Hneg) as [[Hs _] [Hb _]].
      rewrite E in Hs, Hb. simpl in Hs, Hb.
      assert (H10 : offset mod 10 = 0) by (apply Hs; discriminate).
      assert (H12 : offset mod 12 = 0) by (apply Hb; discriminate).
      rewrite <- E. unfold heavenlyStemAndEarthlyBranchFromOffset.
      replace (JS.rem offset 10) with 0
        by (unfold JS.rem; Z.to_euclidean_division_equations; lia).
      replace (JS.rem offset 12) with 0
        by (unfold JS.rem; Z.to_euclidean_division_equations; lia).
      reflexivity.
    - exists (offset mod 60). split; [apply Z.mod_pos_bound; lia|].
      rewrite <- fromOffset_mod_60 by lia. exact E. }
  destruct K as (k & Hk & Ek). clear E offset.
  assert (Ek' : k = Z.of_nat (Z.to_nat k)) by lia.
  assert (B : (Z.to_nat k < 60)%nat) by lia.
  revert Ek' B. generalize (Z.to_nat k). intros n En B. subst k.
  do 60 (destruct n as [|n];
         [vm_compute in Ek; injection Ek as <- <-; reflexivity|]).
  lia.
Qed.

Lemma fromOffset_same_parity_witness :
  heavenlyStemAndEarthlyBranchFromOffset 43
  = (Some dingHeavenly, Some weiEarthly) /\
  JS.indexOf HeavenlyStem_eqb HEAVENLY_STEMS (Some dingHeavenly) mod 2
  = JS.indexOf EarthlyBranch_eqb EARTHLY_BRANCHES (Some weiEarthly) mod 2.
Proof.
  split; [reflexivity|].
  apply (fromOffset_same_parity 43 dingHeavenly weiEarthly). reflexivity.
Defined.

(** X3: below zero the conversion returns a fully defined pair only at the
    multiples of 60, where it returns the first pillar; at every other
    negative offset at least one entry is undefined. *)
Theorem fromOffset_negative_defined_iff (offset : Z) :
  offset < 0 ->
  ((exists s b,
       heavenlyStemAndEarthlyBranchFromOffset offset = (Some s, Some b))
   <-> offset mod 60 = 0) /\
  (offset mod 60 = 0 ->
   heavenlyStemAndEarthlyBranchFromOffset offset
   = (Some jiaHeavenly, Some ziEarthly)).
Proof.
  intros Ho.
  destruct (fromOffset_negative offset Ho) as [Hs Hb].
  assert (V : offset mod 60 = 0 ->
              heavenlyStemAndEarthlyBranchFromOffset offset
              = (Some jiaHeavenly, Some ziEarthly)).
  { intros H60. unfold heavenlyStemAndEarthlyBranchFromOffset.
    replace (JS.rem offset 10) with 0
      by (unfold JS.rem; Z.to_euclidean_division_equations; lia).
    replace (JS.rem offset 12) with 0
      by (unfold JS.rem; Z.to_euclidean_division_equations; lia).
    reflexivity. }
  split; [|exact V]. split.
  - intros (s & b & E). rewrite E in Hs, Hb. simpl in Hs, Hb.
    assert (H10 : offset mod 10 = 0) by (apply Hs; discriminate).
    assert (H12 : offset mod 12 = 0) by (apply Hb; discriminate).
    Z.to_euclidean_division_equations. lia.
  - intros H60. eexists _, _. exact (V H60).
Qed.

Lemma fromOffset_negative_defined_iff_witness :
  -120 < 0 /\
  (((exists s b,
        heavenlyStemAndEarthlyBranchFromOffset (-120) = (Some s, Some b))
    <-> (-120) mod 60 = 0) /\
   ((-120) mod 60 = 0 ->
    heavenlyStemAndEarthlyBranchFromOffset (-120)
    = (Some jiaHeavenly, Some ziEarthly))).
Proof.
  split; [lia|]. apply (fromOffset_negative_defined_iff (-120)). lia.
Defined.

(** ** The year rule and the offset conversion *)

(** X4: from year 4 up to 2^53 (the range in which [year - 3] is computed
    exactly), the year rule, with its 1-based remainders, is the offset
    conversion at [year - 4]; year 4 is the first pillar and the year
    pillars follow the same cycle of sixty as the offsets. *)
Theorem ofYear_is_fromOffset (year : Z) :
  4 <= year <= 9007199254740992 ->
  heavenlyStemAndEarthlyBranchOfYear year
  = heavenlyStemAndEarthlyBranchFromOffset (year - 4).
Proof.
  intros Hy.
  unfold heavenlyStemAndEarthlyBranchOfYear,
    heavenlyStemAndEarthlyBranchFromOffset.
  rewrite sub_exact by lia.
  rewrite !rem_nonneg_mod by lia.
  f_equal; f_equal.
  - destruct ((year - 3) mod 10 =? 0) eqn:E;
      [apply Z.eqb_eq in E|apply Z.eqb_neq in E];
      Z.to_euclidean_division_equations; lia.
  - destruct ((year - 3) mod 12 =? 0) eqn:E;
      [apply Z.eqb_eq in E|apply Z.eqb_neq in E];
      Z.to_euclidean_division_equations; lia.
Qed.

Lemma ofYear_is_fromOffset_witness :
  4 <= 2023 <= 9007199254740992 /\
  heavenlyStemAndEarthlyBranchOfYear 2023
  = heavenlyStemAndEarthlyBranchFromOffset (2023 - 4).
Proof. split; [lia | apply (ofYear_is_fromOffset 2023); lia]. Defined.

(** Above 2^53 the two part: at year 9007199254740996 the year rule works
    on the rounded difference 2^53, the offset conversion at [year - 4] on
    the exact 2^53, one step further in the cycle. *)
Lemma ofYear_is_fromOffset_fails_above :
  heavenlyStemAndEarthlyBranchOfYear 9007199254740996
  = (Some yiHeavenly, Some weiEarthly) /\
  heavenlyStemAndEarthlyBranchFromOffset (9007199254740996 - 4)
  = (Some bingHeavenly, Some shenEarthly).
Proof. split; reflexivity. Qed.

(** From year 3 on, whatever the rounding of [year - 3], the year pillar
    is the pillar of a non-negative offset. *)
Lemma ofYear_fromOffset_shifted (year : Z) :
  3 <= year ->
  0 <= JS.sub year 3 /\
  heavenlyStemAndEarthlyBranchOfYear year
  = heavenlyStemAndEarthlyBranchFromOffset (JS.sub year 3 + 59).
Proof.
  intros Hy. pose proof (sub_nonneg year 3 Hy) as Hr.
  split; [exact Hr|].
  unfold heavenlyStemAndEarthlyBranchOfYear,
    heavenlyStemAndEarthlyBranchFromOffset.
  generalize dependent (JS.sub year 3). intros r Hr.
  rewrite !rem_nonneg_mod by lia.
  f_equal; f_equal.
  - destruct (r mod 10 =? 0) eqn:E;
      [apply Z.eqb_eq in E|apply Z.eqb_neq in E];
      Z.to_euclidean_division_equations; lia.
  - destruct (r mod 12 =? 0) eqn:E;
      [apply Z.eqb_eq in E|apply Z.eqb_neq in E];
      Z.to_euclidean_division_equations; lia.
Qed.

Section MonthRule.

Context {collab : Collaborators}.

(** The month pillar as the pillar of the offset it selects. *)
Lemma ofMonth_offset (date : SolarDate) (year month day : Z) :
  normalizeSolarDateStr date = (year, month, day) ->
  heavenlyStemAndEarthlyBranchOfMonth date
  = heavenlyStemAndEarthlyBranchFromOffset
      ((year - 1900) * 12 + month + 11
       + (if day >=? getTerm year (month * 2 - 1) then 1 else 0)).
Proof.
  intros N. unfold heavenlyStemAndEarthlyBranchOfMonth. rewrite N.
  destruct (day >=? getTerm year (month * 2 - 1));
    [reflexivity | now rewrite Z.add_0_r].
Qed.

(** X5: from 1900 on, the branch of the month pillar depends on the
    calendar month and on the side of the term day only, not on the year:
    from the term day on it is the branch at index [month mod 12], before
    the term day the branch at index [(month + 11) mod 12]. *)
Theorem ofMonth_branch_by_month (date : SolarDate) (year month day : Z) :
  normalizeSolarDateStr date = (year, month, day) ->
  1900 <= year -> 1 <= month <= 12 ->
  snd (heavenlyStemAndEarthlyBranchOfMonth date)
  = JS.get EARTHLY_BRANCHES
      (if day >=? getTerm year (month * 2 - 1)
       then month mod 12 else (month + 11) mod 12).
Proof.
  intros N Hy Hm. rewrite (ofMonth_offset date year month day N).
  unfold heavenlyStemAndEarthlyBranchFromOffset. simpl snd.
  destruct (day >=? getTerm year (month * 2 - 1));
    rewrite rem_nonneg_mod by lia; f_equal;
    Z.to_euclidean_division_equations; lia.
Qed.

(** X6: the month pillar does not change at a calendar-month boundary:
    the pillar from the term day of a month on is the pillar before the
    term day of the next month, December being followed by January of the
    next year. *)
Theorem ofMonth_continuous_across_months (date date' : SolarDate)
        (year month day year' month' day' : Z) :
  normalizeSolarDateStr date = (year, month, day) ->
  normalizeSolarDateStr date' = (year', month', day') ->
  1 <= month <= 12 ->
  (year', month')
  = (if month <? 12 then (year, month + 1) else (year + 1, 1)) ->
  day >= getTerm year (month * 2 - 1) ->
  day' < getTerm year' (month' * 2 - 1) ->
  heavenlyStemAndEarthlyBranchOfMonth date
  = heavenlyStemAndEarthlyBranchOfMonth date'.
Proof.
  intros N N' Hm Hnext Hd Hd'.
  rewrite (ofMonth_offset date year month day N).
  rewrite (ofMonth_offset date' year' month' day' N').
  replace (day >=? getTerm year (month * 2 - 1)) with true
    by (symmetry; apply Z.geb_le; lia).
  replace (day' >=? getTerm year' (month' * 2 - 1)) with false
    by (symmetry; rewrite Z.geb_leb; apply Z.leb_gt; lia).
  f_equal.
  destruct (month <? 12) eqn:E; injection Hnext as -> ->;
    [lia|apply Z.ltb_ge in E; lia].
Qed.

(** X7: from 1900 on, within one calendar month the month pillar from the
    term day on stands exactly one position after the month pillar before
    the term day, in the cycle of sixty. *)
Theorem ofMonth_term_advances_one (date date' : SolarDate)
        (year month day day' : Z) :
  normalizeSolarDateStr date = (year, month, day) ->
  normalizeSolarDateStr date' = (year, month, day') ->
  1900 <= year -> 1 <= month ->
  day < getTerm year (month * 2 - 1) <= day' ->
  exists k,
    cyclePosition (heavenlyStemAndEarthlyBranchOfMonth date) = Some k /\
    cyclePosition (heavenlyStemAndEarthlyBranchOfMonth date')
    = Some ((k + 1) mod 60).
Proof.
  intros N N' Hy Hm Hd.
  rewrite (ofMonth_offset date year month day N).
  rewrite (ofMonth_offset date' year month day' N').
  replace (day >=? getTerm year (month * 2 - 1)) with false
    by (symmetry; rewrite Z.geb_leb; apply Z.leb_gt; lia).
  replace (day' >=? getTerm year (month * 2 - 1)) with true
    by (symmetry; apply Z.geb_le; lia).
  rewrite !cyclePosition_fromOffset by lia.
  eexists. split; [reflexivity|]. f_equal.
  rewrite Z.add_0_r, Z.add_mod_idemp_l by lia. reflexivity.
Qed.

(** X8: from 1900 on, the month pillars repeat every five years: two
    dates of the same calendar month five years apart, on the same side
    of the term day of their month, have the same month pillar. *)
Theorem ofMonth_five_year_cycle (date date' : SolarDate)
        (year month day day' : Z) :
  normalizeSolarDateStr date = (year, month, day) ->
  normalizeSolarDateStr date' = (year + 5, month, day') ->
  1900 <= year -> 1 <= month ->
  (day >=? getTerm year (month * 2 - 1))
  = (day' >=? getTerm (year + 5) (month * 2 - 1)) ->
  heavenlyStemAndEarthlyBranchOfMonth date
  = heavenlyStemAndEarthlyBranchOfMonth date'.
Proof.
  intros N N' Hy Hm Hside.
  rewrite (ofMonth_offset date year month day N).
  rewrite (ofMonth_offset date' (year + 5) month day' N').
  rewrite <- Hside.
  destruct (day >=? getTerm year (month * 2 - 1));
    apply fromOffset_same_iff; try lia;
    Z.to_euclidean_division_equations; lia.
Qed.

End MonthRule.

Lemma ofMonth_branch_by_month_witness :
  normalizeSolarDateStr (2023, 2, 3) = (2023, 2, 3) /\
  1900 <= 2023 /\ 1 <= 2 <= 12 /\
  snd (Sample.ofMonth (2023, 2, 3))
  = JS.get EARTHLY_BRANCHES
      (if 3 >=? getTerm 2023 (2 * 2 - 1) then 2 mod 12 else (2 + 11) mod 12).
Proof.
  split; [reflexivity|]. split; [lia|]. split; [lia|].
  apply (ofMonth_branch_by_month (collab := Sample.collaborators)
           (2023, 2, 3) 2023 2 3); [reflexivity|lia|lia].
Defined.

Lemma ofMonth_continuous_across_months_witness :
  normalizeSolarDateStr (2023, 12, 20) = (2023, 12, 20) /\
  normalizeSolarDateStr (2024, 1, 3) = (2024, 1, 3) /\
  1 <= 12 <= 12 /\
  (2024, 1) = (if 12 <? 12 then (2023, 12 + 1) else (2023 + 1, 1)) /\
  20 >= getTerm 2023 (12 * 2 - 1) /\
  3 < getTerm 2024 (1 * 2 - 1) /\
  Sample.ofMonth (2023, 12, 20) = Sample.ofMonth (2024, 1, 3).
Proof.
  split; [reflexivity|]. split; [reflexivity|]. split; [lia|].
  split; [reflexivity|]. split; [simpl; lia|]. split; [simpl; lia|].
  apply (ofMonth_continuous_across_months (collab := Sample.collaborators)
           (2023, 12, 20) (2024, 1, 3) 2023 12 20 2024 1 3);
    [reflexivity|reflexivity|lia|reflexivity|simpl; lia|simpl; lia].
Defined.

Lemma ofMonth_term_advances_one_witness :
  normalizeSolarDateStr (2023, 6, 5) = (2023, 6, 5) /\
  normalizeSolarDateStr (2023, 6, 6) = (2023, 6, 6) /\
  1900 <= 2023 /\ 1 <= 6 /\
  5 < getTerm 2023 (6 * 2 - 1) <= 6 /\
  (exists k,
      cyclePosition (Sample.ofMonth (2023, 6, 5)) = Some k /\
      cyclePosition (Sample.ofMonth (2023, 6, 6)) = Some ((k + 1) mod 60)).
Proof.
  split; [reflexivity|]. split; [reflexivity|]. split; [lia|].
  split; [lia|]. split; [simpl; lia|].
  apply (ofMonth_term_advances_one (collab := Sample.collaborators)
           (2023, 6, 5) (2023, 6, 6) 2023 6 5 6);
    [reflexivity|reflexivity|lia|lia|simpl; lia].
Defined.

Lemma ofMonth_five_year_cycle_witness :
  normalizeSolarDateStr (2018, 6, 18) = (2018, 6, 18) /\
  normalizeSolarDateStr (2023, 6, 18) = (2018 + 5, 6, 18) /\
  1900 <= 2018 /\ 1 <= 6 /\
  (18 >=? getTerm 2018 (6 * 2 - 1)) = (18 >=? getTerm (2018 + 5) (6 * 2 - 1)) /\
  Sample.ofMonth (2018, 6, 18) = Sample.ofMonth (2023, 6, 18).
Proof.
  split; [reflexivity|]. split; [reflexivity|]. split; [lia|].
  split; [lia|]. split; [reflexivity|].
  apply (ofMonth_five_year_cycle (collab := Sample.collaborators)
           (2018, 6, 18) (2023, 6, 18) 2018 6 18 18);
    [reflexivity|reflexivity|lia|lia|reflexivity].
Defined.

(** ** The day rule and the day number *)

Section DayRule.

Context {collab : Collaborators}.

(** X9: from 1900 on, the day pillar of a date that a [Date] can hold is
    the pillar at position [(n + 25577) mod 60] of the cycle of sixty,
    [n] being the day number of the date since 1970-01-01 (one more at
    the sentinel index 12): it depends on the date through its day number
    only. *)
Theorem ofDay_position_since_1900 (date : SolarDate) (y m d t : Z) :
  normalizeSolarDateStr date = (y, m, d) ->
  1900 <= y -> 1 <= m <= 12 -> 1 <= d ->
  epochDay (y, m, d) <= 100000000 ->
  cyclePosition (heavenlyStemAndEarthlyBranchOfDay date t)
  = Some ((epochDay (y, m, d) + 25577 + (if t =? 12 then 1 else 0)) mod 60).
Proof.
  intros N Hy Hm Hd Hr.
  destruct (dayOffset_nonneg_since_1900 date y m d t N Hy Hm Hd Hr)
    as (o & Eo & Ho).
  unfold heavenlyStemAndEarthlyBranchOfDay.
  rewrite (dayOffset_epochDay date y m d t N) in Eo |- *
    by (try assumption; lia).
  injection Eo as Eo. unfold heavenlyStemAndEarthlyBranchFromNumber.
  apply cyclePosition_fromOffset.
  change (epochDay (y, m, d)) with (JS.MakeDay y (m - 1) d).
  destruct (t =? 12); lia.
Qed.

(** X10: from 1900 on, two dates have the same day pillar (at double-hour
    indices other than the sentinel) exactly when their day numbers
    differ by a multiple of 60. *)
Theorem ofDay_same_iff_sixty_days (date date' : SolarDate)
        (y m d y' m' d' t t' : Z) :
  normalizeSolarDateStr date = (y, m, d) ->
  normalizeSolarDateStr date' = (y', m', d') ->
  1900 <= y -> 1 <= m <= 12 -> 1 <= d -> epochDay (y, m, d) <= 100000000 ->
  1900 <= y' -> 1 <= m' <= 12 -> 1 <= d' ->
  epochDay (y', m', d') <= 100000000 ->
  t <> 12 -> t' <> 12 ->
  heavenlyStemAndEarthlyBranchOfDay date t
  = heavenlyStemAndEarthlyBranchOfDay date' t'
  <-> (epochDay (y', m', d') - epochDay (y, m, d)) mod 60 = 0.
Proof.
  intros N N' Hy Hm Hd Hr Hy' Hm' Hd' Hr' Ht Ht'.
  destruct (dayOffset_nonneg_since_1900 date y m d t N Hy Hm Hd Hr)
    as (o & Eo & Ho).
  destruct (dayOffset_nonneg_since_1900 date' y' m' d' t' N' Hy' Hm' Hd' Hr')
    as (o' & Eo' & Ho').
  unfold heavenlyStemAndEarthlyBranchOfDay. rewrite Eo, Eo'.
  unfold heavenlyStemAndEarthlyBranchFromNumber.
  rewrite (dayOffset_epochDay date y m d t N) in Eo
    by (try assumption; lia).
  rewrite (dayOffset_epochDay date' y' m' d' t' N') in Eo'
    by (try assumption; lia).
  apply Z.eqb_neq in Ht, Ht'. rewrite Ht in Eo. rewrite Ht' in Eo'.
  injection Eo as Eo. injection Eo' as Eo'.
  rewrite fromOffset_same_iff by lia. subst o o'.
  change (epochDay (y, m, d)) with (JS.MakeDay y (m - 1) d).
  change (epochDay (y', m', d')) with (JS.MakeDay y' (m' - 1) d').
  split; intros E; Z.to_euclidean_division_equations; lia.
Qed.

(** From year 100 on, the day offset of a day at the sentinel index is the
    day offset of the next calendar day at any other index. *)
Lemma dayOffset_sentinel_next_day (date date' : SolarDate)
      (ymd : Z * Z * Z) (t : Z) :
  normalizeSolarDateStr date = ymd ->
  normalizeSolarDateStr date' = nextSolarDay ymd ->
  validSolarDate ymd = true ->
  100 <= fst (fst ymd) ->
  representable (nextSolarDay ymd) = true ->
  t <> 12 ->
  dayOffset date 12 = dayOffset date' t.
Proof.
  intros N N' V Hy R Ht.
  pose proof (epochDay_nextSolarDay ymd V) as Enext.
  destruct (nextSolarDay_valid ymd V) as [V' Hy'].
  unfold representable in R. apply Z.leb_le in R.
  destruct ymd as [[y m] d].
  destruct (nextSolarDay (y, m, d)) as [[y' m'] d'] eqn:Nx.
  simpl in Hy, Hy'.
  apply validSolarDate_inv in V. apply validSolarDate_inv in V'.
  rewrite (dayOffset_epochDay date y m d 12 N) by (try assumption; lia).
  rewrite (dayOffset_epochDay date' y' m' d' t N') by (try assumption; lia).
  replace (t =? 12) with false by (symmetry; apply Z.eqb_neq; lia).
  change (12 =? 12) with true. cbv iota. f_equal. lia.
Qed.

(** X11: from year 100 on, the day pillar of a day at the sentinel index
    12 is the day pillar of the next calendar day at any index of 0..11,
    whatever the offsets (negative ones included). *)
Theorem ofDay_late_zi_is_next_day (date date' : SolarDate)
        (ymd : Z * Z * Z) (t : Z) :
  normalizeSolarDateStr date = ymd ->
  normalizeSolarDateStr date' = nextSolarDay ymd ->
  validSolarDate ymd = true ->
  100 <= fst (fst ymd) ->
  representable (nextSolarDay ymd) = true ->
  0 <= t <= 11 ->
  heavenlyStemAndEarthlyBranchOfDay date 12
  = heavenlyStemAndEarthlyBranchOfDay date' t.
Proof.
  intros N N' V Hy R Ht. unfold heavenlyStemAndEarthlyBranchOfDay.
  now rewrite (dayOffset_sentinel_next_day date date' ymd t N N' V Hy R)
    by lia.
Qed.

End DayRule.

Lemma ofDay_position_since_1900_witness :
  normalizeSolarDateStr (2000, 1, 1) = (2000, 1, 1) /\
  1900 <= 2000 /\ 1 <= 1 <= 12 /\ 1 <= 1 /\
  epochDay (2000, 1, 1) <= 100000000 /\
  cyclePosition (Sample.ofDay (2000, 1, 1) 0)
  = Some ((epochDay (2000, 1, 1) + 25577 + (if 0 =? 12 then 1 else 0))
          mod 60).
Proof.
  split; [reflexivity|]. split; [lia|]. split; [lia|]. split; [lia|].
  split; [vm_compute; discriminate|].
  apply (ofDay_position_since_1900 (collab := Sample.collaborators)
           (2000, 1, 1) 2000 1 1 0);
    [reflexivity|lia|lia|lia|vm_compute; discriminate].
Defined.

Lemma ofDay_same_iff_sixty_days_witness :
  normalizeSolarDateStr (2023, 6, 18) = (2023, 6, 18) /\
  normalizeSolarDateStr (2023, 8, 17) = (2023, 8, 17) /\
  1900 <= 2023 /\ 1 <= 6 <= 12 /\ 1 <= 18 /\
  epochDay (2023, 6, 18) <= 100000000 /\
  1900 <= 2023 /\ 1 <= 8 <= 12 /\ 1 <= 17 /\
  epochDay (2023, 8, 17) <= 100000000 /\
  0 <> 12 /\ 11 <> 12 /\
  (Sample.ofDay (2023, 6, 18) 0 = Sample.ofDay (2023, 8, 17) 11
   <-> (epochDay (2023, 8, 17) - epochDay (2023, 6, 18)) mod 60 = 0).
Proof.
  split; [reflexivity|]. split; [reflexivity|].
  split; [lia|]. split; [lia|]. split; [lia|].
  split; [vm_compute; discriminate|].
  split; [lia|]. split; [lia|]. split; [lia|].
  split; [vm_compute; discriminate|].
  split; [lia|]. split; [lia|].
  apply (ofDay_same_iff_sixty_days (collab := Sample.collaborators)
           (2023, 6, 18) (2023, 8, 17) 2023 6 18 2023 8 17 0 11);
    try reflexivity; try lia; vm_compute; discriminate.
Defined.

Lemma ofDay_late_zi_is_next_day_witness :
  normalizeSolarDateStr (2024, 2, 29) = (2024, 2, 29) /\
  normalizeSolarDateStr (2024, 3, 1) = nextSolarDay (2024, 2, 29) /\
  validSolarDate (2024, 2, 29) = true /\
  100 <= fst (fst (2024, 2, 29)) /\
  representable (nextSolarDay (2024, 2, 29)) = true /\
  0 <= 0 <= 11 /\
  Sample.ofDay (2024, 2, 29) 12 = Sample.ofDay (2024, 3, 1) 0.
Proof.
  split; [reflexivity|]. split; [reflexivity|]. split; [reflexivity|].
  split; [simpl; lia|]. split; [reflexivity|]. split; [lia|].
  apply (ofDay_late_zi_is_next_day (collab := Sample.collaborators)
           (2024, 2, 29) (2024, 3, 1) (2024, 2, 29) 0);
    [reflexivity|reflexivity|reflexivity|simpl; lia|reflexivity|lia].
Defined.

(** ** The hour rule on every index *)

Section HourRule.

Variable RAT_RULE : HeavenlyStem -> HeavenlyStem.

(** The hour rule reads its index modulo 12. *)
Lemma ofTime_add_12 (timeIndex : Z) (heavenlyStemOfDay : option HeavenlyStem) :
  heavenlyStemAndEarthlyBranchOfTime RAT_RULE (timeIndex + 12)
    heavenlyStemOfDay
  = heavenlyStemAndEarthlyBranchOfTime RAT_RULE timeIndex heavenlyStemOfDay.
Proof.
  unfold heavenlyStemAndEarthlyBranchOfTime, fixIndexDefault, fixIndex.
  replace ((timeIndex + 12) mod 12) with (timeIndex mod 12)
    by (Z.to_euclidean_division_equations; lia).
  reflexivity.
Qed.

(** X12: the hour rule never returns an undefined entry: for every
    integer index (negative ones and the sentinel 12 included) and every
    day stem, the undefined one included, both entries of its result are
    table entries, [fixIndex] bringing both indices into their table. *)
Theorem ofTime_always_defined (timeIndex : Z)
        (heavenlyStemOfDay : option HeavenlyStem) :
  exists s b,
    heavenlyStemAndEarthlyBranchOfTime RAT_RULE timeIndex heavenlyStemOfDay
    = (Some s, Some b).
Proof.
  unfold heavenlyStemAndEarthlyBranchOfTime, fixIndexDefault, fixIndex.
  pose proof (Z.mod_pos_bound timeIndex 12 ltac:(lia)) as H12.
  set (i := JS.indexOf HeavenlyStem_eqb HEAVENLY_STEMS
              (option_map RAT_RULE heavenlyStemOfDay) + timeIndex mod 12).
  pose proof (Z.mod_pos_bound i 10 ltac:(lia)) as H10.
  destruct (get_stem_defined (i mod 10)) as [s Es]; [lia|].
  destruct (get_branch_defined (timeIndex mod 12)) as [b Eb]; [lia|].
  exists s, b. now rewrite Es, Eb.
Qed.

(** X13: within a day the hour pillars advance with the double-hours:
    for an index in 0..10, when the hour pillar stands at position [k] of
    the cycle of sixty, the hour pillar of the next double-hour stands at
    position [(k + 1) mod 60]. *)
Theorem ofTime_next_hour (timeIndex : Z) (s : HeavenlyStem) (k : Z) :
  0 <= timeIndex <= 10 ->
  cyclePosition
    (heavenlyStemAndEarthlyBranchOfTime RAT_RULE timeIndex (Some s))
  = Some k ->
  cyclePosition
    (heavenlyStemAndEarthlyBranchOfTime RAT_RULE (timeIndex + 1) (Some s))
  = Some ((k + 1) mod 60).
Proof.
  intros Ht.
  unfold heavenlyStemAndEarthlyBranchOfTime. simpl option_map.
  assert (E : timeIndex = Z.of_nat (Z.to_nat timeIndex)) by lia.
  assert (B : (Z.to_nat timeIndex < 11)%nat) by lia.
  revert E B. generalize (Z.to_nat timeIndex). intros n E B. subst timeIndex.
  destruct (RAT_RULE s);
    do 11 (destruct n as [|n];
           [vm_compute; intros H; try discriminate H;
            injection H as <-; reflexivity|]);
    lia.
Qed.

End HourRule.

Lemma ofTime_next_hour_witness :
  0 <= 3 <= 10 /\
  cyclePosition (Sample.ofTime 3 (Some yiHeavenly)) = Some 15 /\
  cyclePosition
    (heavenlyStemAndEarthlyBranchOfTime traditionalRatRule (3 + 1)
       (Some yiHeavenly))
  = Some ((15 + 1) mod 60).
Proof.
  split; [lia|]. split; [reflexivity|].
  apply (ofTime_next_hour traditionalRatRule 3 yiHeavenly 15);
    [lia|reflexivity].
Defined.

(** ** The aggregate queries within the range of the conversions *)

Section Aggregates.

Context {collab : Collaborators}.
Variable RAT_RULE : HeavenlyStem -> HeavenlyStem.

(** From lunar year 3 on, a solar date from 1900 on that a [Date] can
    hold gives year, month and day pillars of the cycle of sixty. *)
Lemma three_pillars_defined (date : SolarDate) (lunarYear y m d t : Z) :
  normalizeSolarDateStr date = (y, m, d) ->
  1900 <= y -> 1 <= m <= 12 -> 1 <= d ->
  epochDay (y, m, d) <= 100000000 ->
  3 <= lunarYear ->
  cyclePosition (heavenlyStemAndEarthlyBranchOfYear lunarYear) <> None /\
  cyclePosition (heavenlyStemAndEarthlyBranchOfMonth date) <> None /\
  cyclePosition (heavenlyStemAndEarthlyBranchOfDay date t) <> None.
Proof.
  intros N Hy Hm Hd Hr Hl. repeat split.
  - destruct (ofYear_fromOffset_shifted lunarYear Hl) as [Hsub E].
    rewrite E, cyclePosition_fromOffset by lia. discriminate.
  - rewrite (ofMonth_offset date y m d N).
    rewrite cyclePosition_fromOffset
      by (destruct (d >=? getTerm y (m * 2 - 1)); lia).
    discriminate.
  - destruct (dayOffset_nonneg_since_1900 date y m d t N Hy Hm Hd Hr)
      as (o & Eo & Ho).
    unfold heavenlyStemAndEarthlyBranchOfDay. rewrite Eo.
    unfold heavenlyStemAndEarthlyBranchFromNumber.
    rewrite cyclePosition_fromOffset by lia. discriminate.
Qed.

(** X14: the solar entry point, on a date string read as a solar date
    from 1900 on that a [Date] can hold and whose lunar year is at least
    3, returns a year, a month and a day pillar that are pillars of the
    cycle of sixty (no undefined entry), for every [timeIndex]. *)
Theorem bySolarDate_pillars_defined (dateStr : string)
        (timeIndex y m d : Z) :
  normalizeSolarDateStr (newDate dateStr) = (y, m, d) ->
  1900 <= y -> 1 <= m <= 12 -> 1 <= d ->
  epochDay (y, m, d) <= 100000000 ->
  3 <= lunarYearOf (solar2lunar dateStr) ->
  let result :=
    getHeavenlyStemAndEarthlyBranchBySolarDate RAT_RULE dateStr timeIndex in
  cyclePosition (yearly result) <> None /\
  cyclePosition (monthly result) <> None /\
  cyclePosition (daily result) <> None.
Proof.
  intros N Hy Hm Hd Hr Hl.
  unfold getHeavenlyStemAndEarthlyBranchBySolarDate. simpl.
  now apply (three_pillars_defined _ _ y m d).
Qed.

(** X15: the lunar entry point, on a lunar date string whose year is at
    least 3 and whose converted solar date is from 1900 on and one that a
    [Date] can hold, returns a year, a month and a day pillar that are
    pillars of the cycle of sixty (no undefined entry), for every
    [timeIndex]. *)
Theorem byLunarDate_pillars_defined (dateStr : string)
        (isLeap : option bool) (timeIndex y m d : Z) :
  normalizeSolarDateStr
    (newDate (solarResultToString (lunar2solar dateStr isLeap)))
  = (y, m, d) ->
  1900 <= y -> 1 <= m <= 12 -> 1 <= d ->
  epochDay (y, m, d) <= 100000000 ->
  3 <= fst (fst (normalizeLunarDateStr dateStr)) ->
  let result :=
    getHeavenlyStemAndEarthlyBranchByLunarDate RAT_RULE dateStr timeIndex
      isLeap in
  cyclePosition (yearly result) <> None /\
  cyclePosition (monthly result) <> None /\
  cyclePosition (daily result) <> None.
Proof.
  intros N Hy Hm Hd Hr Hl.
  unfold getHeavenlyStemAndEarthlyBranchByLunarDate.
  destruct (normalizeLunarDateStr dateStr) as [[lunarYear lm] ld].
  simpl in Hl. simpl.
  now apply (three_pillars_defined _ _ y m d).
Qed.

(** X16: the late-Zi sentinel in the solar entry point: from year 100
    on, the day pillar and the hour pillar returned for a date with
    [timeIndex = 12] are those returned for the next calendar day with
    [timeIndex = 0] (the year and month pillars stay those of the date
    itself). *)
Theorem bySolarDate_late_zi_is_next_day (dateStr dateStr' : string)
        (ymd : Z * Z * Z) :
  normalizeSolarDateStr (newDate dateStr) = ymd ->
  normalizeSolarDateStr (newDate dateStr') = nextSolarDay ymd ->
  validSolarDate ymd = true ->
  100 <= fst (fst ymd) ->
  representable (nextSolarDay ymd) = true ->
  daily (getHeavenlyStemAndEarthlyBranchBySolarDate RAT_RULE dateStr 12)
  = daily (getHeavenlyStemAndEarthlyBranchBySolarDate RAT_RULE dateStr' 0)
  /\
  timely (getHeavenlyStemAndEarthlyBranchBySolarDate RAT_RULE dateStr 12)
  = timely (getHeavenlyStemAndEarthlyBranchBySolarDate RAT_RULE dateStr' 0).
Proof.
  intros N N' V Hy R.
  unfold getHeavenlyStemAndEarthlyBranchBySolarDate. simpl.
  unfold heavenlyStemAndEarthlyBranchOfDay.
  rewrite (dayOffset_sentinel_next_day (newDate dateStr) (newDate dateStr')
             ymd 0 N N' V Hy R) by lia.
  split; [reflexivity|].
  apply (ofTime_add_12 RAT_RULE 0).
Qed.

End Aggregates.

Lemma bySolarDate_pillars_defined_witness :
  normalizeSolarDateStr (newDate "2023-06-18") = (2023, 6, 18) /\
  1900 <= 2023 /\ 1 <= 6 <= 12 /\ 1 <= 18 /\
  epochDay (2023, 6, 18) <= 100000000 /\
  3 <= lunarYearOf (solar2lunar "2023-06-18") /\
  (cyclePosition (yearly (Sample.bySolarDate 7)) <> None /\
   cyclePosition (monthly (Sample.bySolarDate 7)) <> None /\
   cyclePosition (daily (Sample.bySolarDate 7)) <> None).
Proof.
  split; [reflexivity|]. split; [lia|]. split; [lia|]. split; [lia|].
  split; [vm_compute; discriminate|]. split; [simpl; lia|].
  apply (bySolarDate_pillars_defined (collab := Sample.collaborators)
           traditionalRatRule "2023-06-18" 7 2023 6 18);
    [reflexivity|lia|lia|lia|vm_compute; discriminate|simpl; lia].
Defined.

Lemma byLunarDate_pillars_defined_witness :
  normalizeSolarDateStr
    (newDate (solarResultToString (lunar2solar "2023-5-1" None)))
  = (2023, 6, 18) /\
  1900 <= 2023 /\ 1 <= 6 <= 12 /\ 1 <= 18 /\
  epochDay (2023, 6, 18) <= 100000000 /\
  3 <= fst (fst (normalizeLunarDateStr "2023-5-1")) /\
  (cyclePosition (yearly (Sample.byLunarDate 7)) <> None /\
   cyclePosition (monthly (Sample.byLunarDate 7)) <> None /\
   cyclePosition (daily (Sample.byLunarDate 7)) <> None).
Proof.
  split; [reflexivity|]. split; [lia|]. split; [lia|]. split; [lia|].
  split; [vm_compute; discriminate|]. split; [simpl; lia|].
  apply (byLunarDate_pillars_defined (collab := Sample.collaborators)
           traditionalRatRule "2023-5-1" None 7 2023 6 18);
    [reflexivity|lia|lia|lia|vm_compute; discriminate|simpl; lia].
Defined.

Lemma bySolarDate_late_zi_is_next_day_witness :
  normalizeSolarDateStr (Collaborators := LeapDay.collaborators)
    (newDate "2024-02-29") = (2024, 2, 29) /\
  normalizeSolarDateStr (Collaborators := LeapDay.collaborators)
    (newDate "2024-03-01") = nextSolarDay (2024, 2, 29) /\
  validSolarDate (2024, 2, 29) = true /\
  100 <= fst (fst (2024, 2, 29)) /\
  representable (nextSolarDay (2024, 2, 29)) = true /\
  (daily (LeapDay.bySolarDate "2024-02-29" 12)
   = daily (LeapDay.bySolarDate "2024-03-01" 0) /\
   timely (LeapDay.bySolarDate "2024-02-29" 12)
   = timely (LeapDay.bySolarDate "2024-03-01" 0)).
Proof.
  split; [reflexivity|]. split; [reflexivity|]. split; [reflexivity|].
  split; [simpl; lia|]. split; [reflexivity|].
  apply (bySolarDate_late_zi_is_next_day (collab := LeapDay.collaborators)
           traditionalRatRule "2024-02-29" "2024-03-01" (2024, 2, 29));
    [reflexivity|reflexivity|reflexivity|simpl; lia|reflexivity].
Defined.

(** ** Years outside the range of the conversions *)

(** X17: below year 3, down to -2^53 + 3 (the range in which [year - 3]
    is computed exactly), the year rule returns a fully defined pair only
    when [year - 3] is a multiple of 60, where it returns the last pillar
    of the cycle (the remainders 0 being read as 10 and 12); for every
    other year of that range at least one entry is undefined. *)
Theorem ofYear_below_three_defined_iff (year : Z) :
  - 9007199254740989 <= year < 3 ->
  ((exists s b, heavenlyStemAndEarthlyBranchOfYear year = (Some s, Some b))
   <-> (year - 3) mod 60 = 0) /\
  ((year - 3) mod 60 = 0 ->
   heavenlyStemAndEarthlyBranchOfYear year
   = (Some guiHeavenly, Some haiEarthly)).
Proof.
  intros Hy.
  assert (S3 : JS.sub year 3 = year - 3) by (apply sub_exact; lia).
  pose proof (rem_nonpos_range (year - 3) 10 ltac:(lia) ltac:(lia)) as R10.
  pose proof (rem_nonpos_range (year - 3) 12 ltac:(lia) ltac:(lia)) as R12.
  assert (E10 : JS.rem (year - 3) 10 = 0 <-> (year - 3) mod 10 = 0)
    by (unfold JS.rem; Z.to_euclidean_division_equations; lia).
  assert (E12 : JS.rem (year - 3) 12 = 0 <-> (year - 3) mod 12 = 0)
    by (unfold JS.rem; Z.to_euclidean_division_equations; lia).
  assert (V : (year - 3) mod 60 = 0 ->
              heavenlyStemAndEarthlyBranchOfYear year
              = (Some guiHeavenly, Some haiEarthly)).
  { intros H60. unfold heavenlyStemAndEarthlyBranchOfYear. rewrite S3.
    replace (JS.rem (year - 3) 10) with 0
      by (symmetry; apply E10; Z.to_euclidean_division_equations; lia).
    replace (JS.rem (year - 3) 12) with 0
      by (symmetry; apply E12; Z.to_euclidean_division_equations; lia).
    reflexivity. }
  split; [|exact V]. split.
  - intros (s & b & E). unfold heavenlyStemAndEarthlyBranchOfYear in E.
    rewrite S3 in E.
    destruct (JS.rem (year - 3) 10 =? 0) eqn:Z10;
      [apply Z.eqb_eq in Z10
      |apply Z.eqb_neq in Z10; rewrite get_negative in E by lia;
       discriminate E].
    destruct (JS.rem (year - 3) 12 =? 0) eqn:Z12;
      [apply Z.eqb_eq in Z12
      |apply Z.eqb_neq in Z12;
       rewrite (get_negative EARTHLY_BRANCHES) in E by lia;
       discriminate E].
    apply E10 in Z10. apply E12 in Z12.
    Z.to_euclidean_division_equations. lia.
  - intros H60. eexists _, _. exact (V H60).
Qed.

Lemma ofYear_below_three_defined_iff_witness :
  - 9007199254740989 <= -57 < 3 /\
  (((exists s b,
        heavenlyStemAndEarthlyBranchOfYear (-57) = (Some s, Some b))
    <-> (-57 - 3) mod 60 = 0) /\
   ((-57 - 3) mod 60 = 0 ->
    heavenlyStemAndEarthlyBranchOfYear (-57)
    = (Some guiHeavenly, Some haiEarthly))).
Proof.
  split; [lia|]. apply (ofYear_below_three_defined_iff (-57)). lia.
Defined.

(** Below that range the rounding can make a pair fully defined where
    the exact difference is no multiple of 60: at year
    -9007199254741018 the difference is rounded to -9007199254741020. *)
Lemma ofYear_below_three_rounded :
  JS.sub (-9007199254741018) 3 = -9007199254741020 /\
  heavenlyStemAndEarthlyBranchOfYear (-9007199254741018)
  = (Some guiHeavenly, Some haiEarthly) /\
  (-9007199254741018 - 3) mod 60 = 59.
Proof. repeat split. Qed.

Section TwoDigitYears.

Context {collab : Collaborators}.

(** X18: the day rule reads a year of 0..99 as the year 1900 later,
    [Date.UTC] doing so: a date of such a year has the day pillar of the
    same month and day 1900 years later, for every [timeIndex]. *)
Theorem ofDay_two_digit_year (date date' : SolarDate) (y m d t : Z) :
  normalizeSolarDateStr date = (y, m, d) ->
  normalizeSolarDateStr date' = (1900 + y, m, d) ->
  0 <= y <= 99 ->
  heavenlyStemAndEarthlyBranchOfDay date t
  = heavenlyStemAndEarthlyBranchOfDay date' t.
Proof.
  intros N N' Hy.
  unfold heavenlyStemAndEarthlyBranchOfDay, dayOffset. rewrite N, N'.
  unfold JS.Date_UTC, JS.MakeFullYear.
  replace ((0 <=? y) && (y <=? 99)) with true
    by (symmetry; apply andb_true_iff; split; apply Z.leb_le; lia).
  replace ((0 <=? 1900 + y) && (1900 + y <=? 99)) with false
    by (symmetry; apply andb_false_iff; right; apply Z.leb_gt; lia).
  reflexivity.
Qed.

End TwoDigitYears.

Lemma ofDay_two_digit_year_witness :
  normalizeSolarDateStr (99, 12, 31) = (99, 12, 31) /\
  normalizeSolarDateStr (1999, 12, 31) = (1900 + 99, 12, 31) /\
  0 <= 99 <= 99 /\
  Sample.ofDay (99, 12, 31) 0 = Sample.ofDay (1999, 12, 31) 0.
Proof.
  split; [reflexivity|]. split; [reflexivity|]. split; [lia|].
  apply (ofDay_two_digit_year (collab := Sample.collaborators)
           (99, 12, 31) (1999, 12, 31) 99 12 31 0);
    [reflexivity|reflexivity|lia].
Defined.
